(** * Rate-limited client layer of the paper-research tool server

    A shallow embedding of [utils.py], [models.py],
    [semantic_scholar_client.py] and [arxiv_client.py], and the properties
    of the retry executor, the rate limiter, the record normalizers and the
    two API clients.

    Conventions of the embedding.
    - Python values that come out of [response.json()] are terms of [json]
      (numbers are integers); a [dict] is an association list in insertion
      order.
    - A Python computation that may raise is an [outcome]; one that also
      reads the clock, sleeps or talks to the network is a state-passing
      function over [World].
    - Python floats (delays, back-off factor, clock readings) are exact
      rationals. *)

From Stdlib Require Import List String Ascii ZArith QArith Bool Arith Lia Lqa.
From Stdlib Require Import DecimalString.
Import ListNotations.

Set Warnings "-register-all".

Local Close Scope Q_scope.
Local Open Scope string_scope.
Local Open Scope list_scope.

(** ** Exceptions and results *)

Inductive exn : Type :=
| TypeError
| AttributeError
| ValueError
| ParseError
| ClientError
| TimeoutError.

Inductive outcome (A : Type) : Type :=
| Ok (a : A)
| Raised (e : exn).

Arguments Ok {A} a.
Arguments Raised {A} e.

Definition obind {A B : Type} (c : outcome A) (k : A -> outcome B) : outcome B :=
  match c with
  | Ok a => k a
  | Raised e => Raised e
  end.

Notation "'let!' x ':=' c 'in' k" := (obind c (fun x => k))
  (at level 10, x name, c at level 100, k at level 200).

(** ** JSON values and Python dictionaries *)

Inductive json : Type :=
| JNull
| JBool (b : bool)
| JInt (n : Z)
| JStr (s : string)
| JList (l : list json)
| JDict (d : list (string * json)).

Definition dict : Type := list (string * json).

Fixpoint dict_get (k : string) (d : dict) : option json :=
  match d with
  | [] => None
  | (k', v) :: d' => if String.eqb k k' then Some v else dict_get k d'
  end.

Definition dict_has (k : string) (d : dict) : bool :=
  match dict_get k d with Some _ => true | None => false end.

(** [d[k] = v]: an existing key keeps its position, a new key goes last. *)
Fixpoint dict_set (k : string) (v : json) (d : dict) : dict :=
  match d with
  | [] => [(k, v)]
  | (k', v') :: d' =>
      if String.eqb k k' then (k, v) :: d' else (k', v') :: dict_set k v d'
  end.

Definition keys (d : dict) : list string := map fst d.

Definition mem (k : string) (l : list string) : bool := existsb (String.eqb k) l.

(** [mapping.get(key, key)] on a rename table. *)
Fixpoint mapping_get (table : list (string * string)) (key : string) : string :=
  match table with
  | [] => key
  | (k, v) :: table' => if String.eqb key k then v else mapping_get table' key
  end.

(** Python truthiness, as used by [if paper_data:]. *)
Definition truthy (v : json) : bool :=
  match v with
  | JNull => false
  | JBool b => b
  | JInt n => negb (Z.eqb n 0)
  | JStr s => negb (String.eqb s "")
  | JList l => match l with [] => false | _ => true end
  | JDict d => match d with [] => false | _ => true end
  end.

(** ** Keyword-argument binding of a dataclass constructor

    Calling [cls] with the keywords [kw] raises [TypeError] for a keyword that is not a parameter and
    for a parameter without default that is not supplied. *)

Definition unexpected_keyword (params : list string) (kw : dict) : bool :=
  negb (forallb (fun k => mem k params) (keys kw)).

Definition required (kw : dict) (name : string) : outcome json :=
  match dict_get name kw with
  | Some v => Ok v
  | None => Raised TypeError
  end.

Definition defaulted (kw : dict) (name : string) (default : json) : outcome json :=
  match dict_get name kw with
  | Some v => Ok v
  | None => Ok default
  end.

(** ** models.py : SemanticScholarPaper *)

Module SemanticScholarPaper.

Record t : Type := Build {
  paper_id : json;
  title : json;
  abstract : json;
  authors : json;
  year : json;
  citation_count : json;
  reference_count : json;
  influential_citation_count : json;
  venue : json;
  url : json;
  arxiv_id : json;
  doi : json;
  corpus_id : json;
  external_ids : json;
  publication_types : json;
  publication_date : json;
  journal : json;
  citations : json;
  references : json;
  embedding : json;
  tldr : json
}.

(** [inspect.signature(cls).parameters.keys()] *)
Definition valid_fields : list string :=
  [ "paper_id"; "title"; "abstract"; "authors"; "year"; "citation_count";
    "reference_count"; "influential_citation_count"; "venue"; "url";
    "arxiv_id"; "doi"; "corpus_id"; "external_ids"; "publication_types";
    "publication_date"; "journal"; "citations"; "references"; "embedding";
    "tldr" ].

(** The generated [__init__]: seventeen parameters without default, four
    with default [None]. *)
Definition init (kw : dict) : outcome t :=
  if unexpected_keyword valid_fields kw then Raised TypeError else
  let! a1 := required kw "paper_id" in
  let! a2 := required kw "title" in
  let! a3 := required kw "abstract" in
  let! a4 := required kw "authors" in
  let! a5 := required kw "year" in
  let! a6 := required kw "citation_count" in
  let! a7 := required kw "reference_count" in
  let! a8 := required kw "influential_citation_count" in
  let! a9 := required kw "venue" in
  let! a10 := required kw "url" in
  let! a11 := required kw "arxiv_id" in
  let! a12 := required kw "doi" in
  let! a13 := required kw "corpus_id" in
  let! a14 := required kw "external_ids" in
  let! a15 := required kw "publication_types" in
  let! a16 := required kw "publication_date" in
  let! a17 := required kw "journal" in
  let! a18 := defaulted kw "citations" JNull in
  let! a19 := defaulted kw "references" JNull in
  let! a20 := defaulted kw "embedding" JNull in
  let! a21 := defaulted kw "tldr" JNull in
  Ok (Build a1 a2 a3 a4 a5 a6 a7 a8 a9 a10 a11 a12 a13 a14 a15 a16 a17
            a18 a19 a20 a21).

(** [asdict(self)] *)
Definition to_dict (p : t) : dict :=
  [ ("paper_id", paper_id p); ("title", title p); ("abstract", abstract p);
    ("authors", authors p); ("year", year p);
    ("citation_count", citation_count p);
    ("reference_count", reference_count p);
    ("influential_citation_count", influential_citation_count p);
    ("venue", venue p); ("url", url p); ("arxiv_id", arxiv_id p);
    ("doi", doi p); ("corpus_id", corpus_id p);
    ("external_ids", external_ids p);
    ("publication_types", publication_types p);
    ("publication_date", publication_date p); ("journal", journal p);
    ("citations", citations p); ("references", references p);
    ("embedding", embedding p); ("tldr", tldr p) ].

Definition field_mapping : list (string * string) :=
  [ ("paperId", "paper_id");
    ("citationCount", "citation_count");
    ("referenceCount", "reference_count");
    ("influentialCitationCount", "influential_citation_count");
    ("arxivId", "arxiv_id");
    ("corpusId", "corpus_id");
    ("externalIds", "external_ids");
    ("publicationTypes", "publication_types");
    ("publicationDate", "publication_date") ].

Definition defaults : dict :=
  [ ("citation_count", JInt 0);
    ("reference_count", JInt 0);
    ("influential_citation_count", JInt 0);
    ("authors", JList []);
    ("arxiv_id", JNull);
    ("doi", JNull);
    ("corpus_id", JNull) ].

(** One round of [for key, value in data.items()]. *)
Definition convert_step (converted_data : dict) (kv : string * json) : dict :=
  let new_key := mapping_get field_mapping (fst kv) in
  if mem new_key valid_fields
  then dict_set new_key (snd kv) converted_data
  else converted_data.

(** One round of [for key, default_value in defaults.items()]. *)
Definition default_step (converted_data : dict) (kv : string * json) : dict :=
  if dict_has (fst kv) converted_data
  then converted_data
  else dict_set (fst kv) (snd kv) converted_data.

Definition convert (data : dict) : dict :=
  fold_left default_step defaults (fold_left convert_step data []).

(** [data.items()] exists on a dictionary only. *)
Definition from_dict (data : json) : outcome t :=
  match data with
  | JDict d => init (convert d)
  | _ => Raised AttributeError
  end.

End SemanticScholarPaper.

(** ** models.py : AuthorInfo *)

Module AuthorInfo.

Record t : Type := Build {
  author_id : json;
  name : json;
  aliases : json;
  affiliations : json;
  homepage : json;
  paper_count : json;
  citation_count : json;
  h_index : json
}.

Definition fields : list string :=
  [ "author_id"; "name"; "aliases"; "affiliations"; "homepage";
    "paper_count"; "citation_count"; "h_index" ].

Definition init (kw : dict) : outcome t :=
  if unexpected_keyword fields kw then Raised TypeError else
  let! a1 := required kw "author_id" in
  let! a2 := required kw "name" in
  let! a3 := required kw "aliases" in
  let! a4 := required kw "affiliations" in
  let! a5 := required kw "homepage" in
  let! a6 := required kw "paper_count" in
  let! a7 := required kw "citation_count" in
  let! a8 := required kw "h_index" in
  Ok (Build a1 a2 a3 a4 a5 a6 a7 a8).

Definition to_dict (a : t) : dict :=
  [ ("author_id", author_id a); ("name", name a); ("aliases", aliases a);
    ("affiliations", affiliations a); ("homepage", homepage a);
    ("paper_count", paper_count a); ("citation_count", citation_count a);
    ("h_index", h_index a) ].

Definition field_mapping : list (string * string) :=
  [ ("authorId", "author_id");
    ("paperCount", "paper_count");
    ("citationCount", "citation_count");
    ("hIndex", "h_index") ].

Definition convert_step (converted_data : dict) (kv : string * json) : dict :=
  dict_set (mapping_get field_mapping (fst kv)) (snd kv) converted_data.

Definition convert (data : dict) : dict := fold_left convert_step data [].

Definition from_dict (data : json) : outcome t :=
  match data with
  | JDict d => init (convert d)
  | _ => Raised AttributeError
  end.

End AuthorInfo.

(** ** The world outside the process: clock, scheduler, network log

    [clock] is what [time.time()] returns.  [asyncio.sleep(d)] suspends for
    [d] seconds (not at all for a negative [d]) plus whatever extra latency
    the scheduler adds to that suspension, [oversleep n] for the [n]-th
    suspension.  [rate_limiter] is the client's [self.rate_limiter]
    object, shared by every request closure of the client. *)

Module RateLimiterState.
Record t : Type := Build { delay : Q; last_request_time : Q }.
End RateLimiterState.

Inductive request : Type :=
| Get (url : string)
| Post (url : string) (payload : json).

Record response : Type := { status : Z; body : outcome json }.

Record World : Type := {
  clock : Q;
  oversleep : nat -> Q;
  sleep_log : list Q;
  request_log : list request;
  invocations : nat;
  rate_limiter : RateLimiterState.t
}.

Definition M (A : Type) : Type := World -> outcome A * World.

Definition ret {A : Type} (a : A) : M A := fun w => (Ok a, w).

Definition raise {A : Type} (e : exn) : M A := fun w => (Raised e, w).

Definition bind {A B : Type} (c : M A) (k : A -> M B) : M B :=
  fun w =>
    match c w with
    | (Ok a, w') => k a w'
    | (Raised e, w') => (Raised e, w')
    end.

(** [try: c  except Exception as e: h e] *)
Definition catch {A : Type} (c : M A) (h : exn -> M A) : M A :=
  fun w =>
    match c w with
    | (Ok a, w') => (Ok a, w')
    | (Raised e, w') => h e w'
    end.

Definition lift {A : Type} (o : outcome A) : M A := fun w => (o, w).

Notation "x <- c ;; k" := (bind c (fun x => k))
  (at level 61, c at next level, right associativity).
Notation "c ;;; k" := (bind c (fun _ => k))
  (at level 61, right associativity).

Definition Qltb (x y : Q) : bool := negb (Qle_bool y x).

Definition suspended_for (d : Q) : Q := if Qle_bool d 0 then 0%Q else d.

Definition time_time : M Q := fun w => (Ok (clock w), w).

Definition asyncio_sleep (d : Q) : M unit :=
  fun w =>
    (Ok tt,
     {| clock := (clock w + suspended_for d
                  + oversleep w (List.length (sleep_log w)))%Q;
        oversleep := oversleep w;
        sleep_log := sleep_log w ++ [d];
        request_log := request_log w;
        invocations := invocations w;
        rate_limiter := rate_limiter w |}).

(** ** config.py *)

Module Config.
Definition SEMANTIC_SCHOLAR_BASE_URL : string :=
  "https://api.semanticscholar.org/graph/v1".
Definition DEFAULT_RATE_LIMIT_DELAY : Q := 1%Q.
Definition MAX_RETRIES : Z := 3%Z.
Definition BACKOFF_FACTOR : Q := 2%Q.
Definition BATCH_SIZE : Z := 500%Z.
Definition PAPER_FIELDS : list string :=
  [ "paperId"; "title"; "abstract"; "authors"; "year"; "citationCount";
    "referenceCount"; "influentialCitationCount"; "venue"; "url";
    "externalIds"; "publicationTypes"; "publicationDate"; "journal";
    "tldr"; "embedding" ].
Definition CITATION_FIELDS : list string :=
  [ "paperId"; "title"; "abstract"; "authors"; "year"; "citationCount";
    "venue"; "url"; "externalIds" ].
End Config.

(** ** utils.py : RateLimiter *)

Module RateLimiter.
Import RateLimiterState.

Definition init (delay : Q) : t :=
  {| delay := delay; last_request_time := 0%Q |}.

Definition wait (self : t) : M t :=
  current_time <- time_time ;;
  let time_since_last := (current_time - last_request_time self)%Q in
  (if Qltb time_since_last (delay self)
   then asyncio_sleep (delay self - time_since_last)%Q
   else ret tt) ;;;
  now <- time_time ;;
  ret {| delay := delay self; last_request_time := now |}.

End RateLimiter.

(** ** utils.py : handle_rate_limit_retry

    The [debug] prints are left out: they change no result.  The body of
    one iteration of the [for] loop either returns from the function or
    goes on to the next attempt. *)

Inductive control (A : Type) : Type :=
| Return (a : A)
| Continue.

Arguments Return {A} a.
Arguments Continue {A}.

Section Retry.

Variable request_func : M response.
Variable max_retries : Z.
Variable backoff_factor : Q.

Definition attempt_body (attempt : nat) : M (control (option response)) :=
  catch
    (response <- request_func ;;
     if (status response =? 200)%Z then ret (Return (Some response))
     else if (status response =? 429)%Z then
       if (Z.of_nat attempt <? max_retries)%Z then
         asyncio_sleep (backoff_factor ^ Z.of_nat attempt)%Q ;;;
         ret Continue
       else ret (Return (Some response))
     else ret (Return (Some response)))
    (fun e =>
       if (Z.of_nat attempt <? max_retries)%Z then
         asyncio_sleep (backoff_factor ^ Z.of_nat attempt)%Q ;;;
         ret Continue
       else raise e).

Fixpoint retry_loop (attempts : list nat) : M (option response) :=
  match attempts with
  | [] => ret None
  | attempt :: rest =>
      c <- attempt_body attempt ;;
      match c with
      | Return r => ret r
      | Continue => retry_loop rest
      end
  end.

(** [for attempt in range(max_retries + 1)] *)
Definition handle_rate_limit_retry : M (option response) :=
  retry_loop (seq 0 (Z.to_nat (max_retries + 1))).

End Retry.

(** ** utils.py : chunk_list *)

(** [range(0, stop, step)] for a positive [step] *)
Definition range_step (stop step : nat) : list nat :=
  map (fun j => j * step) (seq 0 ((stop + step - 1) / step)).

(** [lst[i:j]] for [0 <= i <= j] *)
Definition slice {A : Type} (lst : list A) (i j : nat) : list A :=
  firstn (j - i) (skipn i lst).

Definition chunk_list {A : Type} (lst : list A) (chunk_size : Z)
  : outcome (list (list A)) :=
  if (chunk_size =? 0)%Z then Raised ValueError
  else if (chunk_size <? 0)%Z then Ok []
  else
    let n := Z.to_nat chunk_size in
    Ok (map (fun i => slice lst i (i + n)) (range_step (List.length lst) n)).

(** ** semantic_scholar_client.py

    The network is a function [server]: what comes back for the [n]-th
    request ever sent (a response, or a transport exception raised by
    [session.get] / [session.post]).  Sending appends to [request_log]
    and counts as one invocation. *)

Definition server_t : Type := nat -> request -> outcome response.

Definition send (server : server_t) (rq : request) : M response :=
  fun w =>
    (server (List.length (request_log w)) rq,
     {| clock := clock w;
        oversleep := oversleep w;
        sleep_log := sleep_log w;
        request_log := request_log w ++ [rq];
        invocations := S (invocations w);
        rate_limiter := rate_limiter w |}).

Definition get_limiter : M RateLimiterState.t :=
  fun w => (Ok (rate_limiter w), w).

Definition set_limiter (rl : RateLimiterState.t) : M unit :=
  fun w =>
    (Ok tt,
     {| clock := clock w;
        oversleep := oversleep w;
        sleep_log := sleep_log w;
        request_log := request_log w;
        invocations := invocations w;
        rate_limiter := rl |}).

(** [data.get(key, default)]: only a dictionary has [get]. *)
Definition py_get (data : json) (key : string) (default : json) : outcome json :=
  match data with
  | JDict d =>
      match dict_get key d with Some v => Ok v | None => Ok default end
  | _ => Raised AttributeError
  end.

(** [str(n)] as formatted into a URL *)
Definition py_str (n : Z) : string := NilZero.string_of_int (Z.to_int n).

(** What [for x in data] ranges over. *)
Definition py_iter (data : json) : outcome (list json) :=
  match data with
  | JList l => Ok l
  | JDict d => Ok (map JStr (keys d))
  | JStr s => Ok (map (fun c => JStr (String c "")) (list_ascii_of_string s))
  | _ => Raised TypeError
  end.

Module SemanticScholarClient.

(** [await self.rate_limiter.wait()] *)
Definition rate_limiter_wait : M unit :=
  rl <- get_limiter ;;
  rl' <- RateLimiter.wait rl ;;
  set_limiter rl'.

Definition paper_url (paper_id : string) (fields : list string) : string :=
  Config.SEMANTIC_SCHOLAR_BASE_URL ++ "/paper/" ++ paper_id
    ++ "?fields=" ++ String.concat "," fields.

Definition batch_url : string :=
  Config.SEMANTIC_SCHOLAR_BASE_URL ++ "/paper/batch".

Definition get_paper (server : server_t) (paper_id : string)
    (fields : option (list string)) : M (option SemanticScholarPaper.t) :=
  let fields :=
    match fields with None => Config.PAPER_FIELDS | Some f => f end in
  let url := paper_url paper_id fields in
  let make_request := rate_limiter_wait ;;; send server (Get url) in
  response <- handle_rate_limit_retry make_request
                Config.MAX_RETRIES Config.BACKOFF_FACTOR ;;
  match response with
  | Some r =>
      if (status r =? 200)%Z then
        data <- lift (body r) ;;
        p <- lift (SemanticScholarPaper.from_dict data) ;;
        ret (Some p)
      else ret None
  | None => ret None
  end.

(** [for paper_data in data: if paper_data: all_papers.append(...)] *)
Fixpoint collect (entries : list json)
    (all_papers : list SemanticScholarPaper.t)
  : outcome (list SemanticScholarPaper.t) :=
  match entries with
  | [] => Ok all_papers
  | paper_data :: rest =>
      if truthy paper_data then
        let! p := SemanticScholarPaper.from_dict paper_data in
        collect rest (all_papers ++ [p])
      else collect rest all_papers
  end.

Definition batch_payload (chunk fields : list string) : json :=
  JDict [ ("ids", JList (map JStr chunk));
          ("fields", JList (map JStr fields)) ].

Definition fetch_chunk (server : server_t) (fields chunk : list string)
    (all_papers : list SemanticScholarPaper.t)
  : M (list SemanticScholarPaper.t) :=
  let payload := batch_payload chunk fields in
  let make_request :=
    rate_limiter_wait ;;; send server (Post batch_url payload) in
  response <- handle_rate_limit_retry make_request
                Config.MAX_RETRIES Config.BACKOFF_FACTOR ;;
  match response with
  | Some r =>
      if (status r =? 200)%Z then
        data <- lift (body r) ;;
        entries <- lift (py_iter data) ;;
        lift (collect entries all_papers)
      else ret all_papers
  | None => ret all_papers
  end.

Fixpoint bulk_loop (server : server_t) (fields : list string)
    (chunks : list (list string))
    (all_papers : list SemanticScholarPaper.t)
  : M (list SemanticScholarPaper.t) :=
  match chunks with
  | [] => ret all_papers
  | chunk :: rest =>
      all_papers' <- fetch_chunk server fields chunk all_papers ;;
      bulk_loop server fields rest all_papers'
  end.

Definition get_paper_bulk (server : server_t) (paper_ids : list string)
    (fields : option (list string)) : M (list SemanticScholarPaper.t) :=
  let fields :=
    match fields with None => Config.PAPER_FIELDS | Some f => f end in
  chunks <- lift (chunk_list paper_ids Config.BATCH_SIZE) ;;
  bulk_loop server fields chunks [].

Definition citations_url (paper_id : string) (fields : list string)
    (limit offset : Z) : string :=
  Config.SEMANTIC_SCHOLAR_BASE_URL ++ "/paper/" ++ paper_id
    ++ "/citations?fields=" ++ String.concat "," fields
    ++ "&limit=" ++ py_str limit ++ "&offset=" ++ py_str offset.

(** [for citation_data in ...: citing_paper = citation_data.get('citingPaper', {})] *)
Fixpoint collect_citing (entries : list json)
    (citations : list SemanticScholarPaper.t)
  : outcome (list SemanticScholarPaper.t) :=
  match entries with
  | [] => Ok citations
  | citation_data :: rest =>
      let! citing_paper := py_get citation_data "citingPaper" (JDict []) in
      if truthy citing_paper then
        let! p := SemanticScholarPaper.from_dict citing_paper in
        collect_citing rest (citations ++ [p])
      else collect_citing rest citations
  end.

Definition get_paper_citations (server : server_t) (paper_id : string)
    (fields : option (list string)) (limit offset : Z)
  : M (list SemanticScholarPaper.t) :=
  let fields :=
    match fields with None => Config.CITATION_FIELDS | Some f => f end in
  let url := citations_url paper_id fields limit offset in
  let make_request := rate_limiter_wait ;;; send server (Get url) in
  response <- handle_rate_limit_retry make_request
                Config.MAX_RETRIES Config.BACKOFF_FACTOR ;;
  match response with
  | Some r =>
      if (status r =? 200)%Z then
        data <- lift (body r) ;;
        listing <- lift (py_get data "data" (JList [])) ;;
        entries <- lift (py_iter listing) ;;
        lift (collect_citing entries [])
      else ret []
  | None => ret []
  end.

End SemanticScholarClient.

(** ** models.py : ArxivPaper *)

Module ArxivPaper.
Record t : Type := Build {
  title : string;
  authors : list string;
  abstract : string;
  arxiv_id : string;
  published_date : option string;
  pdf_url : string;
  categories : list string
}.
End ArxivPaper.

(** ** Strings as [str] uses them *)

(** [str.isspace] on the ASCII range *)
Definition is_space (c : ascii) : bool :=
  let n := nat_of_ascii c in
  ((9 <=? n)%nat && (n <=? 13)%nat) || ((28 <=? n)%nat && (n <=? 32)%nat).

Fixpoint lstrip (s : string) : string :=
  match s with
  | EmptyString => EmptyString
  | String c s' => if is_space c then lstrip s' else s
  end.

Fixpoint rstrip (s : string) : string :=
  match s with
  | EmptyString => EmptyString
  | String c s' =>
      match rstrip s' with
      | EmptyString => if is_space c then EmptyString else String c EmptyString
      | r => String c r
      end
  end.

Definition strip (s : string) : string := rstrip (lstrip s).

Definition newline : ascii := ascii_of_nat 10.
Definition space : ascii := ascii_of_nat 32.

(** [s.replace('\n', ' ')] *)
Fixpoint replace_newlines (s : string) : string :=
  match s with
  | EmptyString => EmptyString
  | String c s' =>
      String (if Ascii.eqb c newline then space else c) (replace_newlines s')
  end.

Fixpoint drop (n : nat) (s : string) : string :=
  match n, s with
  | O, _ => s
  | S n', EmptyString => EmptyString
  | S n', String _ s' => drop n' s'
  end.

(** [sep in s] *)
Fixpoint contains (sep s : string) : bool :=
  String.prefix sep s ||
  match s with
  | EmptyString => false
  | String _ s' => contains sep s'
  end.

(** [s.split(sep)[-1]] for a non-empty [sep]: occurrences are found left to
    right without overlap; [skip] counts the characters of the occurrence
    being stepped over and [acc] is what follows the last one found. *)
Fixpoint last_piece (sep : string) (skip : nat) (s acc : string) : string :=
  match s with
  | EmptyString => acc
  | String _ s' =>
      match skip with
      | S k => last_piece sep k s' acc
      | O =>
          if String.prefix sep s
          then last_piece sep (String.length sep - 1) s'
                 (drop (String.length sep) s)
          else last_piece sep 0 s' acc
      end
  end.

Definition split_last (sep s : string) : string := last_piece sep 0 s s.



(** ** xml.etree.ElementTree, as far as the client uses it *)

Module ET.

Inductive Element : Type :=
| Elem (tag : string) (text : option string)
       (attrib : list (string * string)) (children : list Element).

Definition tag (e : Element) : string :=
  match e with Elem t _ _ _ => t end.
Definition text (e : Element) : option string :=
  match e with Elem _ t _ _ => t end.
Definition attrib (e : Element) : list (string * string) :=
  match e with Elem _ _ a _ => a end.
Definition children (e : Element) : list Element :=
  match e with Elem _ _ _ c => c end.

(** A prefixed name such as ['atom:title'] under
    [ns = {'atom': 'http://www.w3.org/2005/Atom'}] *)
Definition atom (local : string) : string :=
  "{http://www.w3.org/2005/Atom}" ++ local.

(** [e.findall(path, ns)]: the direct children with that tag, in
    document order *)
Definition findall (qname : string) (e : Element) : list Element :=
  filter (fun c => String.eqb (tag c) qname) (children e).

(** [e.find(path, ns)]: the first of them, or [None] *)
Definition find (qname : string) (e : Element) : option Element :=
  List.find (fun c => String.eqb (tag c) qname) (children e).

(** [e.get(key)] *)
Fixpoint lookup (key : string) (a : list (string * string)) : option string :=
  match a with
  | [] => None
  | (k, v) :: a' => if String.eqb key k then Some v else lookup key a'
  end.

Definition get (key : string) (e : Element) : option string :=
  lookup key (attrib e).

End ET.

(** ** arxiv_client.py *)

Module ArxivClient.
Import ET.

(** [elem.text.strip()]: [AttributeError] when the element has no text *)
Definition text_strip (e : Element) : outcome string :=
  match text e with
  | Some s => Ok (strip s)
  | None => Raised AttributeError
  end.

Fixpoint author_names (authors : list Element) : outcome (list string) :=
  match authors with
  | [] => Ok []
  | author :: rest =>
      match find (atom "name") author with
      | Some name_elem =>
          let! n := text_strip name_elem in
          let! ns := author_names rest in
          Ok (n :: ns)
      | None => author_names rest
      end
  end.

Fixpoint first_pdf_link (links : list Element) : string :=
  match links with
  | [] => ""
  | link :: rest =>
      match get "type" link with
      | Some ty =>
          if String.eqb ty "application/pdf"
          then match get "href" link with Some h => h | None => "" end
          else first_pdf_link rest
      | None => first_pdf_link rest
      end
  end.

Fixpoint category_terms (cats : list Element) : list string :=
  match cats with
  | [] => []
  | category :: rest =>
      match get "term" category with
      | Some term =>
          if String.eqb term "" then category_terms rest
          else term :: category_terms rest
      | None => category_terms rest
      end
  end.

(** The body of the [try] block of [_parse_entry] *)
Definition parse_entry_body (entry : Element) : outcome ArxivPaper.t :=
  let! title_text :=
    match find (atom "title") entry with
    | Some title => let! s := text_strip title in Ok (replace_newlines s)
    | None => Ok "Unknown Title"
    end in
  let! authors := author_names (findall (atom "author") entry) in
  let! abstract :=
    match find (atom "summary") entry with
    | Some summary => let! s := text_strip summary in Ok (replace_newlines s)
    | None => Ok ""
    end in
  let! arxiv_id :=
    match find (atom "id") entry with
    | Some id_elem =>
        match text id_elem with
        | Some id_url =>
            if contains "/abs/" id_url
            then Ok (split_last "/abs/" id_url)
            else Ok ""
        | None => Raised TypeError
        end
    | None => Ok ""
    end in
  let published_date :=
    match find (atom "published") entry with
    | Some published => text published
    | None => Some ""
    end in
  let pdf_url := first_pdf_link (findall (atom "link") entry) in
  let categories := category_terms (findall (atom "category") entry) in
  Ok (ArxivPaper.Build title_text authors abstract arxiv_id published_date
        pdf_url categories).

(** [except Exception: return None] *)
Definition parse_entry (entry : Element) : option ArxivPaper.t :=
  match parse_entry_body entry with
  | Ok paper => Some paper
  | Raised _ => None
  end.

(** [for entry in entries: paper = ...; if paper: papers.append(paper)] *)
Fixpoint parse_entries (entries : list Element) : list ArxivPaper.t :=
  match entries with
  | [] => []
  | entry :: rest =>
      match parse_entry entry with
      | Some paper => paper :: parse_entries rest
      | None => parse_entries rest
      end
  end.

Section Parser.

(** [ET.fromstring]: the document's root element, or [ParseError]
    for a text that is not well-formed XML. *)
Variable fromstring : string -> outcome Element.


Definition parse_arxiv_search_response (xml_content : string)
  : outcome (list ArxivPaper.t) :=
  match fromstring xml_content with
  | Ok root => Ok (parse_entries (findall (atom "entry") root))
  | Raised ParseError => Ok []
  | Raised e => Raised e
  end.

End Parser.

End ArxivClient.

(** ** utils.py : sanitize_filename, format_authors *)

Definition dquote : ascii := ascii_of_nat 34.
Definition underscore : ascii := "_"%char.

(** [invalid_chars], one character after the other *)
Definition invalid_chars : list ascii :=
  [ "<"%char; ">"%char; ":"%char; dquote; "/"%char; "\"%char; "|"%char;
    "?"%char; "*"%char ].

(** [s.replace(old, new)] for single characters *)
Fixpoint replace_char (old new : ascii) (s : string) : string :=
  match s with
  | EmptyString => EmptyString
  | String c s' =>
      String (if Ascii.eqb c old then new else c) (replace_char old new s')
  end.

Definition sanitize_filename (filename : string) : string :=
  strip (fold_left (fun name char => replace_char char underscore name)
           invalid_chars filename).

(** [sep.join(items)]: [TypeError] for an item that is not a string *)
Fixpoint py_join (sep : string) (items : list json) : outcome string :=
  match items with
  | [] => Ok ""
  | JStr s :: rest =>
      match rest with
      | [] => Ok s
      | _ => let! r := py_join sep rest in Ok (s ++ sep ++ r)%string
      end
  | _ => Raised TypeError
  end.

Section FormatAuthors.

(** [str(author)] for an author that is not a dictionary *)
Variable py_str_of : json -> string.

Definition display_name (author : json) : json :=
  match author with
  | JDict d =>
      match dict_get "name" d with Some v => v | None => JStr "" end
  | _ => JStr (py_str_of author)
  end.

Fixpoint display_names (authors : list json) : list json :=
  match authors with
  | [] => []
  | author :: rest =>
      let name := display_name author in
      if truthy name then name :: display_names rest
      else display_names rest
  end.

Definition format_authors (authors : list json) : outcome string :=
  match authors with
  | [] => Ok "Unknown"
  | _ =>
      let author_names := display_names authors in
      if (List.length author_names <=? 3)%nat
      then py_join ", " author_names
      else let! shown := py_join ", " (firstn 3 author_names) in
           Ok (shown ++ ", et al.")%string
  end.

End FormatAuthors.

(** ** models.py : SemanticScholarPaper.get_author_names *)

(** [[author.get('name', '') for author in self.authors if author.get('name')]] *)
Fixpoint names_of (authors : list json) : outcome (list json) :=
  match authors with
  | [] => Ok []
  | author :: rest =>
      let! probe := py_get author "name" JNull in
      if truthy probe then
        let! name := py_get author "name" (JStr "") in
        let! names := names_of rest in
        Ok (name :: names)
      else names_of rest
  end.

Definition get_author_names (self : SemanticScholarPaper.t)
  : outcome (list json) :=
  let! authors := py_iter (SemanticScholarPaper.authors self) in
  names_of authors.

(** ** semantic_scholar_client.py : get_paper_embeddings *)

(** [paper.embedding if paper else None]; a record is always truthy *)
Definition get_paper_embeddings (server : server_t) (paper_id : string)
  : M (option json) :=
  paper <- SemanticScholarClient.get_paper server paper_id (Some ["embedding"]) ;;
  match paper with
  | Some p => ret (Some (SemanticScholarPaper.embedding p))
  | None => ret None
  end.

(** ** arxiv_client.py : the network operations

    An arXiv response carries a status and the text that [response.text()]
    gives (or the exception it raises). *)

Record text_response : Type := { text_status : Z; text : outcome string }.

Definition text_server_t : Type := nat -> request -> outcome text_response.

Definition send_text (server : text_server_t) (rq : request) : M text_response :=
  fun w =>
    (server (List.length (request_log w)) rq,
     {| clock := clock w;
        oversleep := oversleep w;
        sleep_log := sleep_log w;
        request_log := request_log w ++ [rq];
        invocations := S (invocations w);
        rate_limiter := rate_limiter w |}).

(** [s.replace(old, new)] for a non-empty [old]: occurrences are replaced
    left to right without overlap; [skip] counts the characters of the
    occurrence being stepped over. *)
Fixpoint replace_from (old new : string) (skip : nat) (s : string) : string :=
  match s with
  | EmptyString => EmptyString
  | String c s' =>
      match skip with
      | S k => replace_from old new k s'
      | O =>
          if String.prefix old s
          then new ++ replace_from old new (String.length old - 1) s'
          else String c (replace_from old new 0 s')
      end
  end.

Definition replace (old new s : string) : string := replace_from old new 0 s.

Module ArxivRequests.

Definition ARXIV_BASE_URL : string := "http://export.arxiv.org/api/query".

Section Requests.

Variable server : text_server_t.
Variable fromstring : string -> outcome ET.Element.

(** [async with session.get(query_url) as response: ...] inside
    [try: ... except Exception: return fallback] *)
Definition fetch {A : Type} (query_url : string)
    (parse : string -> outcome A) (fallback : A) : M A :=
  SemanticScholarClient.rate_limiter_wait ;;;
  catch
    (response <- send_text server (Get query_url) ;;
     if (text_status response =? 200)%Z then
       content <- lift (text response) ;;
       lift (parse content)
     else ret fallback)
    (fun _ => ret fallback).


Definition search_url (search_query : string) (max_results : Z)
    (sort_by sort_order : string) : string :=
  ARXIV_BASE_URL ++ "?" ++ "search_query=" ++ search_query ++ "&"
    ++ "start=0&" ++ "max_results=" ++ py_str max_results ++ "&"
    ++ "sortBy=" ++ sort_by ++ "&" ++ "sortOrder=" ++ sort_order.

Definition search_papers (query : string) (max_results : Z)
    (sort_by sort_order : string) : M (list ArxivPaper.t) :=
  let search_query := replace " " "+AND+" query in
  fetch (search_url ("all:" ++ search_query) max_results sort_by sort_order)
    (ArxivClient.parse_arxiv_search_response fromstring) [].

Definition search_by_author (author_name : string) (max_results : Z)
  : M (list ArxivPaper.t) :=
  let author_query := replace " " "+" author_name in
  fetch (search_url ("au:" ++ author_query) max_results
           "submittedDate" "descending")
    (ArxivClient.parse_arxiv_search_response fromstring) [].

Definition search_by_category (category : string) (max_results : Z)
  : M (list ArxivPaper.t) :=
  fetch (search_url ("cat:" ++ category) max_results
           "submittedDate" "descending")
    (ArxivClient.parse_arxiv_search_response fromstring) [].

End Requests.

End ArxivRequests.

(** ** Vocabulary of the statements *)

(** A key of a payload that [SemanticScholarPaper.from_dict] keeps. *)
Definition known_key (kv : string * json) : bool :=
  mem (mapping_get SemanticScholarPaper.field_mapping (fst kv))
      SemanticScholarPaper.valid_fields.



(** An operation whose [n]-th invocation does what [script n] says. *)
Definition scripted (script : nat -> outcome response) : M response :=
  fun w =>
    (script (invocations w),
     {| clock := clock w;
        oversleep := oversleep w;
        sleep_log := sleep_log w;
        request_log := request_log w;
        invocations := S (invocations w);
        rate_limiter := rate_limiter w |}).

Definition reply (code : Z) (data : json) : response :=
  {| status := code; body := Ok data |}.



(** A process started on 2023-11-14 with a fresh client and a scheduler
    that wakes sleepers on time. *)
Definition fresh_world : World :=
  {| clock := 1700000000%Q;
     oversleep := fun _ => 0%Q;
     sleep_log := [];
     request_log := [];
     invocations := 0;
     rate_limiter := RateLimiter.init Config.DEFAULT_RATE_LIMIT_DELAY |}.

(** A network that answers every request with status 200 and the JSON
    document [answer n rq]. *)
Definition answering (answer : nat -> request -> json) : server_t :=
  fun n rq => Ok (reply 200 (answer n rq)).

Definition requested_fields (fields : option (list string)) : list string :=
  match fields with None => Config.PAPER_FIELDS | Some f => f end.

(** The batch requests for a list of chunks, in order. *)
Definition batch_requests (fields : list string) (chunks : list (list string))
  : list request :=
  map (fun chunk =>
         Post SemanticScholarClient.batch_url
              (SemanticScholarClient.batch_payload chunk fields))
      chunks.

(** The entries of the arrays returned for [reqs], the first of which is
    the [n]-th request ever sent, one array after the other. *)
Fixpoint batch_entries (answer : nat -> request -> json) (n : nat)
    (reqs : list request) : list json :=
  match reqs with
  | [] => []
  | rq :: rest =>
      match answer n rq with JList l => l | _ => [] end
      ++ batch_entries answer (S n) rest
  end.

(** Every returned document is an array whose non-empty entries can be
    normalized. *)
Definition returns_papers (answer : nat -> request -> json) : Prop :=
  forall n rq,
    exists entries,
      answer n rq = JList entries
      /\ Forall (fun e => truthy e = true ->
                         exists p, SemanticScholarPaper.from_dict e = Ok p)
                entries.

(** A paper object as the batch endpoint returns it for [Config.PAPER_FIELDS]. *)
Definition paper_payload (id : string) : json :=
  JDict [ ("paperId", JStr id); ("title", JStr "Attention"); ("abstract", JNull);
          ("authors", JList [JDict [("authorId", JStr "1"); ("name", JStr "A")]]);
          ("year", JInt 2017); ("citationCount", JInt 5);
          ("referenceCount", JInt 40); ("influentialCitationCount", JInt 1);
          ("venue", JStr "NeurIPS"); ("url", JNull); ("externalIds", JNull);
          ("publicationTypes", JNull); ("publicationDate", JNull);
          ("journal", JNull); ("tldr", JNull); ("embedding", JNull) ].

Definition paper_record (id : string) : SemanticScholarPaper.t :=
  SemanticScholarPaper.Build
    (JStr id) (JStr "Attention") JNull
    (JList [JDict [("authorId", JStr "1"); ("name", JStr "A")]])
    (JInt 2017) (JInt 5) (JInt 40) (JInt 1) (JStr "NeurIPS") JNull
    JNull JNull JNull JNull JNull JNull JNull JNull JNull JNull JNull.



(** [n] calls of [wait] on one instance, one after the other. *)
Fixpoint wait_times (n : nat) (self : RateLimiterState.t)
  : M RateLimiterState.t :=
  match n with
  | O => ret self
  | S n' => self' <- RateLimiter.wait self ;; wait_times n' self'
  end.

(** [c in s] for a character *)
Fixpoint occurs (c : ascii) (s : string) : bool :=
  match s with
  | EmptyString => false
  | String c' s' => Ascii.eqb c c' || occurs c s'
  end.

Definition starts_with_space (s : string) : bool :=
  match s with
  | EmptyString => false
  | String c _ => is_space c
  end.

Fixpoint ends_with_space (s : string) : bool :=
  match s with
  | EmptyString => false
  | String c EmptyString => is_space c
  | String _ s' => ends_with_space s'
  end.

(** What the nine replacements of [sanitize_filename] do to one character. *)
Definition sanitize_char (ch : ascii) : ascii :=
  fold_left (fun a c => if Ascii.eqb a c then underscore else a)
    invalid_chars ch.

(** The value that a payload supplies for a field: that of its last entry
    whose key, renamed by [table], is the field. *)
Definition supplied (table : list (string * string)) (data : dict)
    (field : string) : option json :=
  fold_left
    (fun found kv =>
       if String.eqb (mapping_get table (fst kv)) field
       then Some (snd kv) else found)
    data None.

(** The constructor parameters of [SemanticScholarPaper] that have no
    default value and no entry in [defaults]. *)
Definition needed_fields : list string :=
  [ "paper_id"; "title"; "abstract"; "year"; "venue"; "url"; "external_ids";
    "publication_types"; "publication_date"; "journal" ].

(** What a field of [SemanticScholarPaper] holds when the payload does not
    supply it. *)
Definition default_of (field : string) : json :=
  match dict_get field SemanticScholarPaper.defaults with
  | Some v => v
  | None => JNull
  end.

(** The constructor parameters of [SemanticScholarPaper] without default. *)
Definition required_fields : list string :=
  [ "paper_id"; "title"; "abstract"; "authors"; "year"; "citation_count";
    "reference_count"; "influential_citation_count"; "venue"; "url";
    "arxiv_id"; "doi"; "corpus_id"; "external_ids"; "publication_types";
    "publication_date"; "journal" ].

(** * Properties *)

(** ** Dictionaries *)

Lemma dict_has_set_same (k : string) (v : json) (d : dict) :
  dict_has k (dict_set k v d) = true.
Proof.
  unfold dict_has.
  induction d as [|[k' v'] d IH]; simpl.
  - now rewrite String.eqb_refl.
  - destruct (String.eqb k k') eqn:E; simpl; rewrite ?String.eqb_refl, ?E; auto.
Qed.

Lemma dict_has_set_other (k k' : string) (v : json) (d : dict) :
  dict_has k d = true -> dict_has k (dict_set k' v d) = true.
Proof.
  unfold dict_has.
  induction d as [|[k0 v0] d IH]; simpl; [discriminate|].
  destruct (String.eqb k k0) eqn:E; intros H.
  - apply String.eqb_eq in E; subst k0.
    destruct (String.eqb k' k) eqn:E'; simpl.
    + apply String.eqb_eq in E'; subst k'. now rewrite String.eqb_refl.
    + now rewrite String.eqb_refl.
  - destruct (String.eqb k' k0) eqn:E'; simpl.
    + apply String.eqb_eq in E'; subst k0. now rewrite E.
    + rewrite E. auto.
Qed.

Lemma dict_has_keys (k : string) (d : dict) :
  dict_has k d = true -> In k (keys d).
Proof.
  unfold dict_has, keys.
  induction d as [|[k' v'] d IH]; simpl; [discriminate|].
  destruct (String.eqb k k') eqn:E; intros H.
  - left. symmetry. now apply String.eqb_eq.
  - right. auto.
Qed.

Lemma unexpected_keyword_intro (params : list string) (kw : dict) (k : string) :
  In k (keys kw) -> mem k params = false -> unexpected_keyword params kw = true.
Proof.
  intros Hin Hmem. unfold unexpected_keyword.
  destruct (forallb (fun k0 => mem k0 params) (keys kw)) eqn:E; [|reflexivity].
  rewrite forallb_forall in E. specialize (E k Hin). congruence.
Qed.

(** ** AuthorInfo.from_dict keeps every renamed key *)

Lemma author_convert_keeps (data : dict) (acc : dict) (k : string) :
  dict_has k acc = true ->
  dict_has k (fold_left AuthorInfo.convert_step data acc) = true.
Proof.
  revert acc. induction data as [|kv data IH]; intros acc H; simpl; [exact H|].
  apply IH. unfold AuthorInfo.convert_step. now apply dict_has_set_other.
Qed.

Lemma author_convert_has (data : dict) (acc : dict) (key : string) :
  In key (keys data) ->
  dict_has (mapping_get AuthorInfo.field_mapping key)
           (fold_left AuthorInfo.convert_step data acc) = true.
Proof.
  revert acc. induction data as [|[k v] data IH]; intros acc Hin; simpl in *.
  - contradiction.
  - destruct Hin as [-> | Hin].
    + apply author_convert_keeps. unfold AuthorInfo.convert_step. simpl.
      apply dict_has_set_same.
    + now apply IH.
Qed.

(** ** SemanticScholarPaper.from_dict drops what is not a field *)

Lemma paper_convert_filter (data : dict) (acc : dict) :
  fold_left SemanticScholarPaper.convert_step data acc =
  fold_left SemanticScholarPaper.convert_step (filter known_key data) acc.
Proof.
  revert acc. induction data as [|kv data IH]; intros acc; simpl; [reflexivity|].
  unfold known_key at 1.
  destruct (mem (mapping_get SemanticScholarPaper.field_mapping (fst kv))
                SemanticScholarPaper.valid_fields) eqn:E.
  - simpl. apply IH.
  - unfold SemanticScholarPaper.convert_step at 2. rewrite E. apply IH.
Qed.

Lemma paper_from_dict_filter (data : dict) :
  SemanticScholarPaper.from_dict (JDict data) =
  SemanticScholarPaper.from_dict (JDict (filter known_key data)).
Proof.
  unfold SemanticScholarPaper.from_dict, SemanticScholarPaper.convert.
  now rewrite paper_convert_filter.
Qed.

(** C10.  [AuthorInfo.from_dict] renames keys but filters nothing: as soon as
    one key of the input, after renaming, is not a field of [AuthorInfo], the
    constructor raises [TypeError].  [SemanticScholarPaper.from_dict], in
    contrast, gives the same result as on the input with every such key
    removed. *)
Theorem author_from_dict_unknown_field_raises :
  forall (data : dict) (key : string),
    In key (keys data) ->
    mem (mapping_get AuthorInfo.field_mapping key) AuthorInfo.fields = false ->
    AuthorInfo.from_dict (JDict data) = Raised TypeError
    /\ SemanticScholarPaper.from_dict (JDict data) =
       SemanticScholarPaper.from_dict (JDict (filter known_key data)).
Proof.
  intros data key Hin Hmem. split.
  - unfold AuthorInfo.from_dict, AuthorInfo.init.
    rewrite (unexpected_keyword_intro AuthorInfo.fields _
               (mapping_get AuthorInfo.field_mapping key)); auto.
    apply dict_has_keys. unfold AuthorInfo.convert.
    now apply author_convert_has.
  - apply paper_from_dict_filter.
Qed.

Lemma author_from_dict_unknown_field_raises_witness :
  AuthorInfo.from_dict
    (JDict [("authorId", JStr "1"); ("name", JStr "A"); ("url", JStr "u")])
  = Raised TypeError
  /\ SemanticScholarPaper.from_dict
       (JDict [("authorId", JStr "1"); ("name", JStr "A"); ("url", JStr "u")])
     = SemanticScholarPaper.from_dict
         (JDict (filter known_key
                   [("authorId", JStr "1"); ("name", JStr "A");
                    ("url", JStr "u")])).
Proof.
  apply (author_from_dict_unknown_field_raises
           [("authorId", JStr "1"); ("name", JStr "A"); ("url", JStr "u")]
           "url").
  - simpl. auto.
  - reflexivity.
Defined.

(** ** SemanticScholarPaper.from_dict on partial payloads *)

Ltac destruct_entries data H :=
  repeat
    (destruct data as [|[? ?] data]; simpl in H;
     [discriminate H | injection H as ? H; subst]);
  destruct data; [clear H | discriminate H].

(** C2.  A payload that carries exactly the fields the client requests for
    citing and cited papers ([Config.CITATION_FIELDS]), whatever their
    values, is not normalized: [publication_types], [publication_date] and
    [journal] get no default and the constructor raises [TypeError]. *)
Theorem paper_from_dict_citation_fields_raises :
  forall data : dict,
    keys data = Config.CITATION_FIELDS ->
    SemanticScholarPaper.from_dict (JDict data) = Raised TypeError.
Proof.
  intros data H. unfold keys, Config.CITATION_FIELDS in H.
  destruct_entries data H.
  reflexivity.
Qed.

Lemma paper_from_dict_citation_fields_raises_witness :
  SemanticScholarPaper.from_dict
    (JDict [ ("paperId", JStr "X"); ("title", JStr "T"); ("abstract", JNull);
             ("authors", JList []); ("year", JInt 2020);
             ("citationCount", JInt 1); ("venue", JStr "V");
             ("url", JStr "u"); ("externalIds", JNull) ])
  = Raised TypeError.
Proof.
  apply paper_from_dict_citation_fields_raises. reflexivity.
Defined.

(** A payload with exactly the fields of [Config.PAPER_FIELDS] is
    normalized: the renamed fields carry the payload's values and the
    identifiers that the payload cannot carry are null. *)
Lemma paper_from_dict_paper_fields (data : dict) :
  keys data = Config.PAPER_FIELDS ->
  exists p,
    SemanticScholarPaper.from_dict (JDict data) = Ok p
    /\ Some (SemanticScholarPaper.paper_id p) = dict_get "paperId" data
    /\ Some (SemanticScholarPaper.citation_count p)
       = dict_get "citationCount" data
    /\ SemanticScholarPaper.arxiv_id p = JNull
    /\ SemanticScholarPaper.doi p = JNull
    /\ SemanticScholarPaper.corpus_id p = JNull
    /\ SemanticScholarPaper.citations p = JNull
    /\ SemanticScholarPaper.references p = JNull.
Proof.
  intros H. unfold keys, Config.PAPER_FIELDS in H.
  destruct_entries data H.
  eexists. split; [reflexivity|]. repeat split.
Qed.

(** C7.  The object [{"paperId": "X", "citationCount": 5}] is not
    normalized to a record: the constructor raises [TypeError] for the
    fields that have no default.  Serializing a record and normalizing the
    dictionary again gives the record back. *)
Theorem paper_from_dict_minimal_and_roundtrip :
  SemanticScholarPaper.from_dict
    (JDict [("paperId", JStr "X"); ("citationCount", JInt 5)])
  = Raised TypeError
  /\ forall p : SemanticScholarPaper.t,
       SemanticScholarPaper.from_dict (JDict (SemanticScholarPaper.to_dict p))
       = Ok p.
Proof.
  split; [reflexivity|].
  intros p. destruct p. reflexivity.
Qed.

(** ** handle_rate_limit_retry *)

Section RetryFacts.

Variable op : M response.
Variable max_retries : Z.
Variable backoff_factor : Q.

Let body := attempt_body op max_retries backoff_factor.
Let loop := retry_loop op max_retries backoff_factor.
Let backoff (i : nat) : Q := (backoff_factor ^ Z.of_nat i)%Q.

Lemma attempt_body_200 (attempt : nat) (w w1 : World) (resp : response) :
  op w = (Ok resp, w1) -> status resp = 200%Z ->
  body attempt w = (Ok (Return (Some resp)), w1).
Proof.
  intros Hop Hst. unfold body, attempt_body, catch, bind.
  rewrite Hop, Hst. reflexivity.
Qed.

Lemma attempt_body_429_retry (attempt : nat) (w w1 : World) (resp : response) :
  op w = (Ok resp, w1) -> status resp = 429%Z ->
  (Z.of_nat attempt < max_retries)%Z ->
  body attempt w = (Ok Continue, snd (asyncio_sleep (backoff attempt) w1)).
Proof.
  intros Hop Hst Hlt. unfold body, attempt_body, catch, bind.
  rewrite Hop, Hst. simpl.
  apply Z.ltb_lt in Hlt. rewrite Hlt. reflexivity.
Qed.

Lemma attempt_body_429_final (attempt : nat) (w w1 : World) (resp : response) :
  op w = (Ok resp, w1) -> status resp = 429%Z ->
  (max_retries <= Z.of_nat attempt)%Z ->
  body attempt w = (Ok (Return (Some resp)), w1).
Proof.
  intros Hop Hst Hge. unfold body, attempt_body, catch, bind.
  rewrite Hop, Hst. simpl.
  apply Z.ltb_ge in Hge. rewrite Hge. reflexivity.
Qed.

Lemma attempt_body_other (attempt : nat) (w w1 : World) (resp : response) :
  op w = (Ok resp, w1) -> status resp <> 200%Z -> status resp <> 429%Z ->
  body attempt w = (Ok (Return (Some resp)), w1).
Proof.
  intros Hop H200 H429. unfold body, attempt_body, catch, bind.
  rewrite Hop.
  apply Z.eqb_neq in H200. apply Z.eqb_neq in H429.
  rewrite H200, H429. reflexivity.
Qed.

Lemma attempt_body_raise_retry (attempt : nat) (w w1 : World) (e : exn) :
  op w = (Raised e, w1) ->
  (Z.of_nat attempt < max_retries)%Z ->
  body attempt w = (Ok Continue, snd (asyncio_sleep (backoff attempt) w1)).
Proof.
  intros Hop Hlt. unfold body, attempt_body, catch, bind.
  rewrite Hop. apply Z.ltb_lt in Hlt. rewrite Hlt. reflexivity.
Qed.

Lemma attempt_body_raise_final (attempt : nat) (w w1 : World) (e : exn) :
  op w = (Raised e, w1) ->
  (max_retries <= Z.of_nat attempt)%Z ->
  body attempt w = (Raised e, w1).
Proof.
  intros Hop Hge. unfold body, attempt_body, catch, bind.
  rewrite Hop. apply Z.ltb_ge in Hge. rewrite Hge. reflexivity.
Qed.

Lemma loop_cons (attempt : nat) (rest : list nat) (w : World) :
  loop (attempt :: rest) w =
  match body attempt w with
  | (Ok (Return r), w') => (Ok r, w')
  | (Ok Continue, w') => loop rest w'
  | (Raised e, w') => (Raised e, w')
  end.
Proof.
  unfold loop, body. simpl. unfold bind.
  destruct (attempt_body op max_retries backoff_factor attempt w)
    as [[[r|]|e] w']; reflexivity.
Qed.


End RetryFacts.







(** ** RateLimiter.wait *)

Lemma Qltb_true (x y : Q) : Qltb x y = true -> (x < y)%Q.
Proof.
  unfold Qltb. intros H. apply negb_true_iff in H.
  apply Qnot_le_lt. intros Hle. apply Qle_bool_iff in Hle. congruence.
Qed.

Lemma Qltb_false (x y : Q) : Qltb x y = false -> (y <= x)%Q.
Proof.
  unfold Qltb. intros H. apply negb_false_iff in H. now apply Qle_bool_iff.
Qed.

Lemma Qltb_lt (x y : Q) : (x < y)%Q -> Qltb x y = true.
Proof.
  intros H. destruct (Qltb x y) eqn:E; [reflexivity|].
  apply Qltb_false in E. lra.
Qed.

Lemma Qltb_ge (x y : Q) : (y <= x)%Q -> Qltb x y = false.
Proof.
  intros H. destruct (Qltb x y) eqn:E; [|reflexivity].
  apply Qltb_true in E. lra.
Qed.

Lemma suspended_for_pos (d : Q) : (0 < d)%Q -> suspended_for d = d.
Proof.
  intros H. unfold suspended_for.
  destruct (Qle_bool d 0) eqn:E; [|reflexivity].
  apply Qle_bool_iff in E. lra.
Qed.

(** One call of [wait], from any state of the instance and of the world. *)
Lemma wait_step (self : RateLimiterState.t) (w : World) :
  (forall n, 0 <= oversleep w n)%Q ->
  exists self' w',
    RateLimiter.wait self w = (Ok self', w')
    /\ RateLimiterState.delay self' = RateLimiterState.delay self
    /\ RateLimiterState.last_request_time self' = clock w'
    /\ (RateLimiterState.last_request_time self + RateLimiterState.delay self
        <= clock w')%Q
    /\ ((clock w - RateLimiterState.last_request_time self
         < RateLimiterState.delay self)%Q ->
        sleep_log w' =
        sleep_log w ++
          [(RateLimiterState.delay self
            - (clock w - RateLimiterState.last_request_time self))%Q])
    /\ ((RateLimiterState.delay self
         <= clock w - RateLimiterState.last_request_time self)%Q ->
        sleep_log w' = sleep_log w /\ clock w' = clock w).
Proof.
  intros Hover. destruct self as [d last].
  unfold RateLimiter.wait, bind, time_time, ret. simpl.
  destruct (Qltb (clock w - last) d) eqn:E.
  - apply Qltb_true in E. simpl.
    eexists. eexists. split; [reflexivity|]. simpl.
    split; [reflexivity|]. split; [reflexivity|].
    split; [|split].
    + rewrite suspended_for_pos by lra.
      specialize (Hover (List.length (sleep_log w))). lra.
    + intros _. reflexivity.
    + intros Hge. lra.
  - apply Qltb_false in E. simpl.
    eexists. eexists. split; [reflexivity|]. simpl.
    split; [reflexivity|]. split; [reflexivity|].
    split; [|split].
    + lra.
    + intros Hlt. lra.
    + intros _. split; reflexivity.
Qed.

(** C5 (amended).  Two consecutive [wait()] calls on one instance with delay
    [d] return at least [d] seconds apart, whatever happens in between: the
    second call sleeps for what is missing when less than [d] has elapsed
    and does not sleep otherwise.  The first call on a fresh instance does
    not sleep when the clock reads at least [d]. *)
Theorem rate_limiter_consecutive_waits :
  forall (d : Q) (self0 : RateLimiterState.t) (w0 between : World),
    RateLimiterState.delay self0 = d ->
    (forall n, 0 <= oversleep between n)%Q ->
    (exists self1 w1 self2 w2,
       RateLimiter.wait self0 w0 = (Ok self1, w1)
       /\ RateLimiter.wait self1 between = (Ok self2, w2)
       /\ RateLimiterState.last_request_time self1 = clock w1
       /\ RateLimiterState.last_request_time self2 = clock w2
       /\ (clock w1 + d <= clock w2)%Q
       /\ ((clock between - clock w1 < d)%Q ->
           sleep_log w2 =
           sleep_log between ++ [(d - (clock between - clock w1))%Q])
       /\ ((d <= clock between - clock w1)%Q ->
           sleep_log w2 = sleep_log between /\ clock w2 = clock between))
    /\ (forall w : World,
          (d <= clock w)%Q ->
          exists self1 w1,
            RateLimiter.wait (RateLimiter.init d) w = (Ok self1, w1)
            /\ sleep_log w1 = sleep_log w
            /\ clock w1 = clock w).
Proof.
  intros d self0 w0 between Hd Hover. split.
  - destruct self0 as [d0 last0]. simpl in Hd. subst d0.
    assert (H1 : exists self1 w1,
               RateLimiter.wait {| RateLimiterState.delay := d;
                                   RateLimiterState.last_request_time := last0 |}
                 w0 = (Ok self1, w1)
               /\ RateLimiterState.delay self1 = d
               /\ RateLimiterState.last_request_time self1 = clock w1).
    { unfold RateLimiter.wait, bind, time_time, ret. simpl.
      destruct (Qltb (clock w0 - last0) d); simpl;
        eexists; eexists; repeat split. }
    destruct H1 as (self1 & w1 & Hw1 & Hd1 & Hl1).
    destruct (wait_step self1 between Hover)
      as (self2 & w2 & Hw2 & Hd2 & Hl2 & Hsp & Hshort & Hlong).
    exists self1, w1, self2, w2.
    rewrite Hd1, Hl1 in *. repeat split; auto; apply Hlong; auto.
  - intros w Hw. unfold RateLimiter.wait, RateLimiter.init, bind, time_time, ret.
    simpl. rewrite Qltb_ge by lra. simpl.
    eexists. eexists. repeat split.
Qed.

Lemma rate_limiter_consecutive_waits_witness :
  (exists self1 w1 self2 w2,
     RateLimiter.wait (RateLimiter.init 1) fresh_world = (Ok self1, w1)
     /\ RateLimiter.wait self1
          (snd (asyncio_sleep (1 # 4) fresh_world)) = (Ok self2, w2)
     /\ RateLimiterState.last_request_time self1 = clock w1
     /\ RateLimiterState.last_request_time self2 = clock w2
     /\ (clock w1 + 1 <= clock w2)%Q
     /\ ((clock (snd (asyncio_sleep (1 # 4) fresh_world)) - clock w1 < 1)%Q ->
         sleep_log w2 =
         sleep_log (snd (asyncio_sleep (1 # 4) fresh_world))
           ++ [(1 - (clock (snd (asyncio_sleep (1 # 4) fresh_world))
                     - clock w1))%Q])
     /\ ((1 <= clock (snd (asyncio_sleep (1 # 4) fresh_world)) - clock w1)%Q ->
         sleep_log w2 = sleep_log (snd (asyncio_sleep (1 # 4) fresh_world))
         /\ clock w2 = clock (snd (asyncio_sleep (1 # 4) fresh_world))))
  /\ (forall w : World,
        (1 <= clock w)%Q ->
        exists self1 w1,
          RateLimiter.wait (RateLimiter.init 1) w = (Ok self1, w1)
          /\ sleep_log w1 = sleep_log w
          /\ clock w1 = clock w).
Proof.
  apply (rate_limiter_consecutive_waits 1 (RateLimiter.init 1) fresh_world
           (snd (asyncio_sleep (1 # 4) fresh_world))).
  - reflexivity.
  - intros n. simpl. apply Qle_refl.
Defined.

(** The first call on a fresh instance sleeps when the delay is larger than
    the clock reading: with a delay of 2 000 000 000 seconds on a clock at
    1 700 000 000 it sleeps 300 000 000 seconds. *)
Lemma first_wait_suspends_for_a_long_delay :
  exists wait_time,
    sleep_log
      (snd (RateLimiter.wait (RateLimiter.init 2000000000) fresh_world))
    = sleep_log fresh_world ++ [wait_time]
    /\ (wait_time == 300000000)%Q.
Proof.
  eexists. split.
  - reflexivity.
  - reflexivity.
Qed.

(** ** The client's request closure *)

Lemma rate_limiter_wait_ok (w : World) :
  exists w1,
    SemanticScholarClient.rate_limiter_wait w = (Ok tt, w1)
    /\ request_log w1 = request_log w
    /\ invocations w1 = invocations w.
Proof.
  unfold SemanticScholarClient.rate_limiter_wait, get_limiter, set_limiter,
    RateLimiter.wait, bind, time_time, ret.
  destruct (Qltb _ _); simpl; eexists; repeat split.
Qed.

Lemma make_request_sends (server : server_t) (rq : request) (w : World) :
  exists w1,
    (SemanticScholarClient.rate_limiter_wait ;;; send server rq) w
    = (server (List.length (request_log w)) rq, w1)
    /\ request_log w1 = request_log w ++ [rq]
    /\ invocations w1 = S (invocations w).
Proof.
  destruct (rate_limiter_wait_ok w) as (w0 & Hw & Hlog & Hinv).
  unfold bind at 1. rewrite Hw. unfold send. rewrite Hlog, Hinv.
  eexists. repeat split.
Qed.

Section RetryFailures.

Variable op : M response.
Variable max_retries : Z.
Variable backoff_factor : Q.

(** Every invocation is answered, never with 200. *)
Lemma loop_never_200 :
  (forall w0, exists resp w1, op w0 = (Ok resp, w1) /\ status resp <> 200%Z) ->
  forall (attempts : list nat) (w : World),
  exists r w',
    retry_loop op max_retries backoff_factor attempts w = (Ok r, w')
    /\ forall resp, r = Some resp -> status resp <> 200%Z.
Proof.
  intros Hop. induction attempts as [|a rest IH]; intros w.
  - exists None, w. split; [reflexivity | discriminate].
  - rewrite loop_cons.
    destruct (Hop w) as (resp & w1 & Hw & Hst).
    destruct (Z.eq_dec (status resp) 429) as [H429|H429].
    + destruct (Z.lt_ge_cases (Z.of_nat a) max_retries) as [Hlt|Hge].
      * rewrite (attempt_body_429_retry op max_retries backoff_factor
                   a w w1 resp Hw H429 Hlt).
        apply IH.
      * rewrite (attempt_body_429_final op max_retries backoff_factor
                   a w w1 resp Hw H429 Hge).
        exists (Some resp), w1. split; [reflexivity|].
        intros resp' [= <-]. exact Hst.
    + rewrite (attempt_body_other op max_retries backoff_factor
                 a w w1 resp Hw Hst H429).
      exists (Some resp), w1. split; [reflexivity|].
      intros resp' [= <-]. exact Hst.
Qed.


End RetryFailures.




(** ** chunk_list *)

Lemma firstn_add_skipn {A : Type} (a b : nat) (l : list A) :
  firstn (a + b) l = firstn a l ++ firstn b (skipn a l).
Proof.
  revert l. induction a as [|a IH]; intros l; simpl; [reflexivity|].
  destruct l as [|x l]; simpl.
  - now rewrite firstn_nil.
  - now rewrite IH.
Qed.

Lemma slice_chunk {A : Type} (l : list A) (i n : nat) :
  slice l i (i + n) = firstn n (skipn i l).
Proof.
  unfold slice. now replace (i + n - i) with n by lia.
Qed.

Lemma chunks_concat {A : Type} (l : list A) (n k : nat) :
  List.concat (map (fun i => slice l i (i + n)) (map (fun j => j * n) (seq 0 k)))
  = firstn (k * n) l.
Proof.
  induction k as [|k IH]; [reflexivity|].
  rewrite seq_S, !map_app, concat_app, IH. simpl.
  rewrite app_nil_r, slice_chunk.
  replace (n + k * n) with (k * n + n) by lia.
  now rewrite firstn_add_skipn.
Qed.

Lemma ceil_div_bounds (len n : nat) :
  0 < n ->
  len <= (len + n - 1) / n * n
  /\ forall i, i < (len + n - 1) / n -> i * n < len.
Proof.
  intros Hn.
  pose proof (Nat.div_mod_eq (len + n - 1) n) as Hdiv.
  pose proof (Nat.mod_upper_bound (len + n - 1) n) as Hmod.
  set (q := (len + n - 1) / n) in *. set (m := (len + n - 1) mod n) in *.
  split; [nia|]. intros i Hi. nia.
Qed.

Lemma chunk_list_spec {A : Type} (lst : list A) (chunk_size : Z) :
  (0 < chunk_size)%Z ->
  exists chunks,
    chunk_list lst chunk_size = Ok chunks
    /\ List.concat chunks = lst
    /\ forall i c,
         nth_error chunks i = Some c ->
         0 < List.length c <= Z.to_nat chunk_size
         /\ (S i < List.length chunks -> List.length c = Z.to_nat chunk_size).
Proof.
  intros Hpos. unfold chunk_list.
  destruct (Z.eqb_spec chunk_size 0) as [|_]; [lia|].
  destruct (Z.ltb_spec chunk_size 0) as [|_]; [lia|].
  set (n := Z.to_nat chunk_size). assert (Hn : 0 < n) by (unfold n; lia).
  destruct (ceil_div_bounds (List.length lst) n Hn) as [Hcover Hstart].
  eexists. split; [reflexivity|]. unfold range_step.
  set (k := (List.length lst + n - 1) / n) in *.
  split.
  - rewrite chunks_concat. now apply firstn_all2.
  - intros i c Hc.
    rewrite !nth_error_map, nth_error_seq in Hc.
    destruct (Nat.ltb_spec i k) as [Hi|Hi]; [|discriminate].
    simpl in Hc. injection Hc as <-.
    rewrite slice_chunk, length_firstn, length_skipn.
    rewrite !length_map, length_seq.
    pose proof (Hstart i Hi) as Hlt.
    split; [lia|]. intros Hnext.
    pose proof (Hstart (S i) Hnext) as Hlt'. simpl in Hlt'. lia.
Qed.

(** ** get_paper_bulk *)

Lemma retry_first_200 (op : M response) (r : Z) (bf : Q) (w w1 : World)
    (resp : response) :
  (0 <= r)%Z ->
  op w = (Ok resp, w1) -> status resp = 200%Z ->
  handle_rate_limit_retry op r bf w = (Ok (Some resp), w1).
Proof.
  intros Hr Hop Hst. unfold handle_rate_limit_retry.
  replace (Z.to_nat (r + 1)) with (S (Z.to_nat r)) by lia.
  simpl seq. rewrite loop_cons.
  now rewrite (attempt_body_200 op r bf 0 w w1 resp Hop Hst).
Qed.

Lemma collect_ok (entries : list json) :
  Forall (fun e => truthy e = true ->
                   exists p, SemanticScholarPaper.from_dict e = Ok p) entries ->
  forall acc,
  exists papers,
    SemanticScholarClient.collect entries acc = Ok (acc ++ papers)
    /\ map Ok papers
       = map SemanticScholarPaper.from_dict (filter truthy entries).
Proof.
  induction 1 as [|e entries He _ IH]; intros acc; simpl.
  - exists []. now rewrite app_nil_r.
  - destruct (truthy e) eqn:Et.
    + destruct (He eq_refl) as (p & Hp). rewrite Hp. simpl.
      destruct (IH (acc ++ [p])) as (papers & Hc & Hm).
      exists (p :: papers). rewrite Hc, <- app_assoc. simpl.
      now rewrite Hp, Hm.
    + apply IH.
Qed.

Lemma fetch_chunk_ok (answer : nat -> request -> json)
    (fields chunk : list string) (acc : list SemanticScholarPaper.t)
    (w : World) :
  returns_papers answer ->
  exists papers w',
    SemanticScholarClient.fetch_chunk (answering answer) fields chunk acc w
    = (Ok (acc ++ papers), w')
    /\ request_log w' = request_log w ++ batch_requests fields [chunk]
    /\ map Ok papers
       = map SemanticScholarPaper.from_dict
           (filter truthy
              (batch_entries answer (List.length (request_log w))
                 (batch_requests fields [chunk]))).
Proof.
  intros Hans. unfold SemanticScholarClient.fetch_chunk.
  set (rq := Post _ _).
  destruct (make_request_sends (answering answer) rq w) as (w1 & Hw & Hlog & _).
  destruct (Hans (List.length (request_log w)) rq) as (entries & Ha & Hall).
  destruct (collect_ok entries Hall acc) as (papers & Hc & Hm).
  exists papers, w1.
  unfold bind at 1.
  assert (Hr : (0 <= Config.MAX_RETRIES)%Z) by (unfold Config.MAX_RETRIES; lia).
  rewrite (retry_first_200 _ Config.MAX_RETRIES Config.BACKOFF_FACTOR w w1
             (reply 200 (answer (List.length (request_log w)) rq))
             Hr Hw eq_refl).
  simpl. unfold bind, lift. simpl. rewrite Ha. simpl. rewrite Hc.
  split; [reflexivity|]. split; [exact Hlog|].
  fold rq. rewrite Ha, app_nil_r. exact Hm.
Qed.

Lemma bulk_loop_ok (answer : nat -> request -> json) (fields : list string) :
  returns_papers answer ->
  forall (chunks : list (list string)) (acc : list SemanticScholarPaper.t)
         (w : World),
  exists papers w',
    SemanticScholarClient.bulk_loop (answering answer) fields chunks acc w
    = (Ok (acc ++ papers), w')
    /\ request_log w' = request_log w ++ batch_requests fields chunks
    /\ map Ok papers
       = map SemanticScholarPaper.from_dict
           (filter truthy
              (batch_entries answer (List.length (request_log w))
                 (batch_requests fields chunks))).
Proof.
  intros Hans. induction chunks as [|chunk rest IH]; intros acc w.
  - exists [], w. simpl. unfold ret. now rewrite !app_nil_r.
  - destruct (fetch_chunk_ok answer fields chunk acc w Hans)
      as (ps1 & w1 & Hf & Hlog1 & Hm1).
    destruct (IH (acc ++ ps1) w1) as (ps2 & w2 & Hl & Hlog2 & Hm2).
    exists (ps1 ++ ps2), w2.
    simpl SemanticScholarClient.bulk_loop. unfold bind at 1. rewrite Hf, Hl.
    split; [now rewrite app_assoc|]. split.
    + rewrite Hlog2, Hlog1, <- app_assoc. reflexivity.
    + rewrite map_app, Hm1, Hm2, Hlog1, length_app. simpl.
      rewrite app_nil_r, Nat.add_1_r, filter_app, map_app. reflexivity.
Qed.

(** C6.  [get_paper_bulk] cuts the identifier list into consecutive chunks
    that concatenate back to the list, each of 1 to 500 identifiers and all
    but the last of exactly 500.  Against a network that answers every
    batch request with an array, it sends one batch request per chunk, in
    order, and returns one record per non-empty entry of the returned
    arrays, in order; null entries give no record.  In particular the
    answer [[{...id1}, null]] to the identifiers [["id1", "id2"]] gives
    exactly the record of [id1]. *)
Theorem get_paper_bulk_chunks_and_null_entries :
  (forall (answer : nat -> request -> json) (paper_ids : list string)
          (fields : option (list string)) (w : World),
      returns_papers answer ->
      exists chunks papers w',
        chunk_list paper_ids Config.BATCH_SIZE = Ok chunks
        /\ List.concat chunks = paper_ids
        /\ (forall i c,
              nth_error chunks i = Some c ->
              0 < List.length c <= 500
              /\ (S i < List.length chunks -> List.length c = 500))
        /\ SemanticScholarClient.get_paper_bulk
             (answering answer) paper_ids fields w = (Ok papers, w')
        /\ request_log w'
           = request_log w ++ batch_requests (requested_fields fields) chunks
        /\ map Ok papers
           = map SemanticScholarPaper.from_dict
               (filter truthy
                  (batch_entries answer (List.length (request_log w))
                     (batch_requests (requested_fields fields) chunks))))
  /\ fst (SemanticScholarClient.get_paper_bulk
            (answering (fun _ _ => JList [paper_payload "id1"; JNull]))
            ["id1"; "id2"] None fresh_world)
     = Ok [paper_record "id1"].
Proof.
  split.
  - intros answer paper_ids fields w Hans.
    destruct (chunk_list_spec paper_ids Config.BATCH_SIZE)
      as (chunks & Hchunks & Hconcat & Hsizes).
    { unfold Config.BATCH_SIZE. lia. }
    destruct (bulk_loop_ok answer (requested_fields fields) Hans chunks [] w)
      as (papers & w' & Hloop & Hlog & Hm).
    exists chunks, papers, w'.
    split; [exact Hchunks|]. split; [exact Hconcat|].
    split; [exact Hsizes|].
    split; [|split; assumption].
    unfold SemanticScholarClient.get_paper_bulk, bind, lift.
    rewrite Hchunks. exact Hloop.
  - vm_compute. reflexivity.
Qed.

Lemma get_paper_bulk_chunks_and_null_entries_witness :
  exists chunks papers w',
    chunk_list ["id1"; "id2"] Config.BATCH_SIZE = Ok chunks
    /\ List.concat chunks = ["id1"; "id2"]
    /\ (forall i c,
          nth_error chunks i = Some c ->
          0 < List.length c <= 500
          /\ (S i < List.length chunks -> List.length c = 500))
    /\ SemanticScholarClient.get_paper_bulk
         (answering (fun _ _ => JList [paper_payload "id1"; JNull]))
         ["id1"; "id2"] None fresh_world = (Ok papers, w')
    /\ request_log w'
       = request_log fresh_world
         ++ batch_requests (requested_fields None) chunks
    /\ map Ok papers
       = map SemanticScholarPaper.from_dict
           (filter truthy
              (batch_entries (fun _ _ => JList [paper_payload "id1"; JNull])
                 (List.length (request_log fresh_world))
                 (batch_requests (requested_fields None) chunks))).
Proof.
  apply (proj1 get_paper_bulk_chunks_and_null_entries
           (fun _ _ => JList [paper_payload "id1"; JNull])
           ["id1"; "id2"] None fresh_world).
  intros n rq. eexists. split; [reflexivity|].
  apply Forall_cons; [intros _; eexists; reflexivity|].
  apply Forall_cons; [intros H; discriminate H|].
  apply Forall_nil.
Defined.

(** ** get_paper_citations

    The client asks for [Config.CITATION_FIELDS] and hands every citing
    paper it gets to [SemanticScholarPaper.from_dict]: a listing with one
    citing paper that carries exactly these fields makes the call raise. *)

Lemma get_paper_citations_raises_on_requested_fields
    (data : dict) (paper_id : string) (limit offset : Z) (w : World) :
  keys data = Config.CITATION_FIELDS ->
  fst (SemanticScholarClient.get_paper_citations
         (answering
            (fun _ _ =>
               JDict [("data", JList [JDict [("citingPaper", JDict data)]])]))
         paper_id None limit offset w)
  = Raised TypeError.
Proof.
  intros Hkeys. unfold keys, Config.CITATION_FIELDS in Hkeys.
  destruct_entries data Hkeys.
  unfold SemanticScholarClient.get_paper_citations.
  set (rq := Get _). set (answer := fun (_ : nat) (_ : request) => _).
  destruct (make_request_sends (answering answer) rq w) as (w1 & Hw & _).
  assert (Hr : (0 <= Config.MAX_RETRIES)%Z) by (unfold Config.MAX_RETRIES; lia).
  unfold bind at 1.
  rewrite (retry_first_200 _ Config.MAX_RETRIES Config.BACKOFF_FACTOR w w1
             (reply 200 (answer (List.length (request_log w)) rq))
             Hr Hw eq_refl).
  reflexivity.
Qed.

(** ** The arXiv parsers *)






(** * Further properties of the code *)

(** ** handle_rate_limit_retry: every way through the loop *)

Section RetryGeneral.

Variable op : M response.
Variable max_retries : Z.
Variable backoff_factor : Q.

(** What one attempt does, by what the operation did. *)
Lemma attempt_body_cases (attempt : nat) (w : World) :
  (exists resp w1,
      op w = (Ok resp, w1)
      /\ (status resp <> 429%Z \/ (max_retries <= Z.of_nat attempt)%Z)
      /\ attempt_body op max_retries backoff_factor attempt w
         = (Ok (Return (Some resp)), w1))
  \/ (exists resp w1,
        op w = (Ok resp, w1)
        /\ status resp = 429%Z
        /\ (Z.of_nat attempt < max_retries)%Z
        /\ attempt_body op max_retries backoff_factor attempt w
           = (Ok Continue,
              snd (asyncio_sleep (backoff_factor ^ Z.of_nat attempt)%Q w1)))
  \/ (exists e w1,
        op w = (Raised e, w1)
        /\ (Z.of_nat attempt < max_retries)%Z
        /\ attempt_body op max_retries backoff_factor attempt w
           = (Ok Continue,
              snd (asyncio_sleep (backoff_factor ^ Z.of_nat attempt)%Q w1)))
  \/ (exists e w1,
        op w = (Raised e, w1)
        /\ (max_retries <= Z.of_nat attempt)%Z
        /\ attempt_body op max_retries backoff_factor attempt w
           = (Raised e, w1)).
Proof.
  destruct (op w) as [[resp|e] w1] eqn:Hop.
  - destruct (Z.eq_dec (status resp) 200) as [H200|H200].
    + left. exists resp, w1. split; [reflexivity|]. split; [left; lia|].
      eapply attempt_body_200; eauto.
    + destruct (Z.eq_dec (status resp) 429) as [H429|H429].
      * destruct (Z.lt_ge_cases (Z.of_nat attempt) max_retries) as [Hlt|Hge].
        -- right. left. exists resp, w1. repeat split; auto.
           eapply attempt_body_429_retry; eauto.
        -- left. exists resp, w1. split; [reflexivity|]. split; [now right|].
           eapply attempt_body_429_final; eauto.
      * left. exists resp, w1. split; [reflexivity|]. split; [now left|].
        eapply attempt_body_other; eauto.
  - destruct (Z.lt_ge_cases (Z.of_nat attempt) max_retries) as [Hlt|Hge].
    + right. right. left. exists e, w1. repeat split; auto.
      eapply attempt_body_raise_retry; eauto.
    + right. right. right. exists e, w1. repeat split; auto.
      eapply attempt_body_raise_final; eauto.
Qed.


End RetryGeneral.

(** X1.  With a negative [max_retries] the loop has no attempt: the
    function returns [None] at once, without invoking the operation and
    without sleeping. *)
Theorem retry_negative_max_retries :
  forall (op : M response) (r : Z) (backoff_factor : Q) (w : World),
    (r < 0)%Z ->
    handle_rate_limit_retry op r backoff_factor w = (Ok None, w).
Proof.
  intros op r bf w Hr. unfold handle_rate_limit_retry.
  replace (Z.to_nat (r + 1)) with 0 by lia. reflexivity.
Qed.

Lemma retry_negative_max_retries_witness :
  handle_rate_limit_retry (scripted (fun _ => Ok (reply 200 JNull)))
    (-1) Config.BACKOFF_FACTOR fresh_world = (Ok None, fresh_world).
Proof.
  apply (retry_negative_max_retries
           (scripted (fun _ => Ok (reply 200 JNull)))
           (-1) Config.BACKOFF_FACTOR fresh_world).
  lia.
Defined.



Section RetryAfterFailures.

Variable op : M response.
Variable max_retries : Z.
Variable backoff_factor : Q.


End RetryAfterFailures.





(** ** chunk_list: sizes that are not positive, and the number of chunks *)

(** X5.  [chunk_list] raises [ValueError] for a chunk size of 0 and
    returns no chunk at all for a negative one, whatever the list.  For a
    positive size [n] it returns [ceil(len / n)] chunks: none for the empty
    list, and the list itself as the only chunk when it is not empty and
    not longer than [n]. *)
Theorem chunk_list_by_size :
  forall (A : Type) (lst : list A) (chunk_size : Z),
    (chunk_size = 0%Z -> chunk_list lst chunk_size = Raised ValueError)
    /\ ((chunk_size < 0)%Z -> chunk_list lst chunk_size = Ok [])
    /\ ((0 < chunk_size)%Z ->
        exists chunks,
          chunk_list lst chunk_size = Ok chunks
          /\ List.length chunks
             = (List.length lst + Z.to_nat chunk_size - 1)
               / Z.to_nat chunk_size
          /\ (lst = [] -> chunks = [])
          /\ (lst <> [] -> List.length lst <= Z.to_nat chunk_size ->
              chunks = [lst])).
Proof.
  intros A lst n. unfold chunk_list. split; [|split].
  - intros ->. reflexivity.
  - intros Hn. destruct (Z.eqb_spec n 0); [lia|].
    destruct (Z.ltb_spec n 0); [reflexivity | lia].
  - intros Hn. destruct (Z.eqb_spec n 0); [lia|].
    destruct (Z.ltb_spec n 0); [lia|].
    set (m := Z.to_nat n). assert (Hm : 0 < m) by (unfold m; lia).
    eexists. split; [reflexivity|]. unfold range_step.
    split; [now rewrite !length_map, length_seq|]. split.
    + intros ->. simpl List.length.
      rewrite Nat.div_small by lia. reflexivity.
    + intros Hne Hlen.
      assert (Hpos : 0 < List.length lst)
        by (destruct lst; [congruence | simpl; lia]).
      assert (Hq : (List.length lst + m - 1) / m = 1).
      { symmetry. apply (Nat.div_unique _ m 1 (List.length lst - 1)); lia. }
      rewrite Hq. simpl. unfold slice. rewrite Nat.sub_0_r. simpl.
      now rewrite firstn_all2.
Qed.

Lemma chunk_list_by_size_witness :
  chunk_list ["a"; "b"; "c"] 0 = Raised ValueError
  /\ chunk_list ["a"; "b"; "c"] (-2) = Ok []
  /\ exists chunks,
       chunk_list ["a"; "b"; "c"] 2 = Ok chunks
       /\ List.length chunks = (List.length ["a"; "b"; "c"] + Z.to_nat 2 - 1)
                               / Z.to_nat 2
       /\ (["a"; "b"; "c"] = [] -> chunks = [])
       /\ (["a"; "b"; "c"] <> [] ->
           List.length ["a"; "b"; "c"] <= Z.to_nat 2 ->
           chunks = [["a"; "b"; "c"]]).
Proof.
  split; [|split].
  - apply (proj1 (chunk_list_by_size string ["a"; "b"; "c"] 0)). reflexivity.
  - apply (proj1 (proj2 (chunk_list_by_size string ["a"; "b"; "c"] (-2)))).
    lia.
  - apply (proj2 (proj2 (chunk_list_by_size string ["a"; "b"; "c"] 2))). lia.
Defined.

(** ** str.strip *)

Lemma lstrip_no_leading_space (s : string) :
  starts_with_space (lstrip s) = false.
Proof.
  induction s as [|c s IH]; simpl; [reflexivity|].
  destruct (is_space c) eqn:E; [exact IH | simpl; exact E].
Qed.

Lemma lstrip_fixed (s : string) :
  starts_with_space s = false -> lstrip s = s.
Proof.
  destruct s as [|c s]; simpl; [reflexivity|]. now intros ->.
Qed.

Lemma rstrip_no_trailing_space (s : string) :
  ends_with_space (rstrip s) = false.
Proof.
  induction s as [|c s IH]; simpl; [reflexivity|].
  destruct (rstrip s) as [|c2 r] eqn:E.
  - destruct (is_space c) eqn:Ec; simpl; [reflexivity | exact Ec].
  - exact IH.
Qed.

Lemma rstrip_keeps_head (s : string) :
  starts_with_space s = false -> starts_with_space (rstrip s) = false.
Proof.
  destruct s as [|c s]; simpl; [reflexivity|]. intros Hc.
  destruct (rstrip s); [rewrite Hc|]; simpl; auto.
Qed.

Lemma rstrip_idempotent (s : string) : rstrip (rstrip s) = rstrip s.
Proof.
  induction s as [|c s IH]; simpl; [reflexivity|].
  destruct (rstrip s) as [|c2 r] eqn:E.
  - destruct (is_space c) eqn:Ec; simpl; [reflexivity | now rewrite Ec].
  - change (rstrip (String c (String c2 r)))
      with (match rstrip (String c2 r) with
            | EmptyString =>
                if is_space c then EmptyString else String c EmptyString
            | r' => String c r'
            end).
    now rewrite IH.
Qed.

Lemma strip_no_surrounding_space (s : string) :
  starts_with_space (strip s) = false /\ ends_with_space (strip s) = false.
Proof.
  unfold strip. split.
  - apply rstrip_keeps_head, lstrip_no_leading_space.
  - apply rstrip_no_trailing_space.
Qed.

Lemma strip_idempotent (s : string) : strip (strip s) = strip s.
Proof.
  unfold strip.
  rewrite (lstrip_fixed (rstrip (lstrip s))).
  - apply rstrip_idempotent.
  - apply rstrip_keeps_head, lstrip_no_leading_space.
Qed.

Lemma occurs_lstrip (c : ascii) (s : string) :
  occurs c s = false -> occurs c (lstrip s) = false.
Proof.
  induction s as [|c' s IH]; simpl; [reflexivity|].
  intros H. apply orb_false_iff in H as [H1 H2].
  destruct (is_space c'); [auto | simpl; now rewrite H1, H2].
Qed.

Lemma occurs_rstrip (c : ascii) (s : string) :
  occurs c s = false -> occurs c (rstrip s) = false.
Proof.
  induction s as [|c' s IH]; simpl; [reflexivity|].
  intros H. apply orb_false_iff in H as [H1 H2].
  specialize (IH H2).
  destruct (rstrip s) as [|c2 r].
  - destruct (is_space c'); simpl; [reflexivity | now rewrite H1].
  - simpl in *. now rewrite H1, IH.
Qed.

Lemma length_lstrip (s : string) : String.length (lstrip s) <= String.length s.
Proof.
  induction s as [|c s IH]; simpl; [lia|].
  destruct (is_space c); simpl; lia.
Qed.

Lemma length_rstrip (s : string) : String.length (rstrip s) <= String.length s.
Proof.
  induction s as [|c s IH]; simpl; [lia|].
  destruct (rstrip s) as [|c2 r]; [destruct (is_space c)|]; simpl in *; lia.
Qed.

(** ** sanitize_filename *)

Lemma replacements_cons (l : list ascii) (c : ascii) (s : string) :
  fold_left (fun name char => replace_char char underscore name) l (String c s)
  = String (fold_left (fun a c' => if Ascii.eqb a c' then underscore else a) l c)
      (fold_left (fun name char => replace_char char underscore name) l s).
Proof.
  revert c s. induction l as [|i l IH]; intros c s; simpl; [reflexivity|].
  apply IH.
Qed.

Lemma replacements_nil (l : list ascii) :
  fold_left (fun name char => replace_char char underscore name) l EmptyString
  = EmptyString.
Proof. induction l as [|i l IH]; simpl; auto. Qed.

Lemma sanitize_char_spec (ch : ascii) :
  existsb (Ascii.eqb (sanitize_char ch)) invalid_chars = false
  /\ (existsb (Ascii.eqb ch) invalid_chars = false -> sanitize_char ch = ch).
Proof.
  destruct ch as [[] [] [] [] [] [] [] []];
    vm_compute; split; try reflexivity; intros H; try reflexivity;
    discriminate H.
Qed.

Lemma not_invalid_eqb (ch c : ascii) :
  existsb (Ascii.eqb ch) invalid_chars = false ->
  In c invalid_chars -> Ascii.eqb c ch = false.
Proof.
  intros H Hin. destruct (Ascii.eqb c ch) eqn:E; [|reflexivity].
  apply Ascii.eqb_eq in E. subst c.
  assert (Hex : existsb (Ascii.eqb ch) invalid_chars = true).
  { apply existsb_exists. exists ch. split; [exact Hin|]. apply Ascii.eqb_refl. }
  congruence.
Qed.

Lemma replacements_remove_invalid (s : string) (c : ascii) :
  In c invalid_chars ->
  occurs c (fold_left (fun name char => replace_char char underscore name)
              invalid_chars s) = false.
Proof.
  intros Hin. induction s as [|ch s IH].
  - now rewrite replacements_nil.
  - rewrite replacements_cons. cbn [occurs]. rewrite IH.
    fold (sanitize_char ch).
    rewrite (not_invalid_eqb (sanitize_char ch) c); auto.
    apply sanitize_char_spec.
Qed.

Lemma replacements_fixed (s : string) :
  (forall c, In c invalid_chars -> occurs c s = false) ->
  fold_left (fun name char => replace_char char underscore name)
    invalid_chars s = s.
Proof.
  induction s as [|ch s IH]; intros Hclean.
  - apply replacements_nil.
  - rewrite replacements_cons. fold (sanitize_char ch).
    rewrite IH.
    + f_equal. apply sanitize_char_spec.
      destruct (existsb (Ascii.eqb ch) invalid_chars) eqn:E; [|reflexivity].
      apply existsb_exists in E as (c & Hin & Hc).
      apply Ascii.eqb_eq in Hc. subst c.
      specialize (Hclean ch Hin). simpl in Hclean.
      now rewrite Ascii.eqb_refl in Hclean.
    + intros c Hin. specialize (Hclean c Hin). simpl in Hclean.
      now apply orb_false_iff in Hclean.
Qed.

Lemma replacements_length (l : list ascii) (s : string) :
  String.length
    (fold_left (fun name char => replace_char char underscore name) l s)
  = String.length s.
Proof.
  induction s as [|ch s IH].
  - now rewrite replacements_nil.
  - rewrite replacements_cons. cbn [String.length]. now rewrite IH.
Qed.

(** X6.  A sanitized file name contains none of the nine characters of
    [invalid_chars] (angle brackets, colon, double quote, slash, backslash,
    bar, question mark, star), has no whitespace at either end and is not
    longer than the name given; sanitizing it again changes nothing. *)
Theorem sanitize_filename_is_clean :
  forall filename : string,
    (forall c, In c invalid_chars ->
               occurs c (sanitize_filename filename) = false)
    /\ starts_with_space (sanitize_filename filename) = false
    /\ ends_with_space (sanitize_filename filename) = false
    /\ String.length (sanitize_filename filename) <= String.length filename
    /\ sanitize_filename (sanitize_filename filename)
       = sanitize_filename filename.
Proof.
  intros filename. unfold sanitize_filename.
  set (replaced := fold_left _ invalid_chars filename).
  assert (Hclean : forall c, In c invalid_chars ->
                             occurs c (strip replaced) = false).
  { intros c Hin. unfold strip.
    apply occurs_rstrip, occurs_lstrip, replacements_remove_invalid, Hin. }
  split; [exact Hclean|].
  split; [apply strip_no_surrounding_space|].
  split; [apply strip_no_surrounding_space|].
  split.
  - unfold strip.
    pose proof (length_rstrip (lstrip replaced)).
    pose proof (length_lstrip replaced).
    pose proof (replacements_length invalid_chars filename).
    fold replaced in H1. lia.
  - rewrite (replacements_fixed (strip replaced) Hclean).
    apply strip_idempotent.
Qed.

(** ** The normalizers, field by field *)

Lemma dict_get_set (k k' : string) (v : json) (d : dict) :
  dict_get k (dict_set k' v d)
  = if String.eqb k k' then Some v else dict_get k d.
Proof.
  induction d as [|[k0 v0] d IH]; simpl.
  - reflexivity.
  - destruct (String.eqb k' k0) eqn:E0; simpl.
    + apply String.eqb_eq in E0. subst k0.
      destruct (String.eqb k k'); reflexivity.
    + rewrite IH. destruct (String.eqb k k0) eqn:E1; [|reflexivity].
      apply String.eqb_eq in E1. subst k0.
      now rewrite String.eqb_sym, E0.
Qed.

Lemma keys_set_allowed (P : string -> bool) (k : string) (v : json) (d : dict) :
  P k = true -> forallb P (keys d) = true ->
  forallb P (keys (dict_set k v d)) = true.
Proof.
  intros Hk. unfold keys.
  induction d as [|[k0 v0] d IH]; simpl; intros H.
  - now rewrite Hk.
  - apply andb_true_iff in H as [H0 H1].
    destruct (String.eqb k k0); simpl; rewrite ?Hk, ?H0, ?H1; auto.
Qed.

Lemma mem_eqb_false (k f : string) (l : list string) :
  mem f l = true -> mem k l = false -> String.eqb k f = false.
Proof.
  intros Hf Hk. destruct (String.eqb k f) eqn:E; [|reflexivity].
  apply String.eqb_eq in E. subst k. congruence.
Qed.

(** After the renaming loop a valid field holds what the payload supplies. *)
Lemma paper_convert_get (field : string) :
  mem field SemanticScholarPaper.valid_fields = true ->
  forall (data : dict) (acc : dict),
    dict_get field (fold_left SemanticScholarPaper.convert_step data acc)
    = fold_left
        (fun found kv =>
           if String.eqb
                (mapping_get SemanticScholarPaper.field_mapping (fst kv)) field
           then Some (snd kv) else found)
        data (dict_get field acc).
Proof.
  intros Hf. induction data as [|[key v] data IH]; intros acc; [reflexivity|].
  cbn [fold_left]. rewrite IH. f_equal.
  unfold SemanticScholarPaper.convert_step. cbn [fst snd].
  destruct (mem (mapping_get SemanticScholarPaper.field_mapping key)
              SemanticScholarPaper.valid_fields) eqn:Em.
  - rewrite dict_get_set, String.eqb_sym. reflexivity.
  - now rewrite (mem_eqb_false _ _ _ Hf Em).
Qed.

Lemma paper_convert_keys (data : dict) (acc : dict) :
  forallb (fun k => mem k SemanticScholarPaper.valid_fields) (keys acc) = true ->
  forallb (fun k => mem k SemanticScholarPaper.valid_fields)
    (keys (fold_left SemanticScholarPaper.convert_step data acc)) = true.
Proof.
  revert acc. induction data as [|kv data IH]; intros acc H; [exact H|].
  cbn [fold_left]. apply IH. unfold SemanticScholarPaper.convert_step.
  destruct (mem _ _) eqn:Em; [|exact H].
  now apply keys_set_allowed.
Qed.

(** After the defaults loop a field holds what it held, or its default. *)
Lemma defaults_get (field : string) (defaults conv : dict) :
  dict_get field (fold_left SemanticScholarPaper.default_step defaults conv)
  = match dict_get field conv with
    | Some v => Some v
    | None => dict_get field defaults
    end.
Proof.
  revert conv. induction defaults as [|[k0 v0] defaults IH]; intros conv.
  - simpl. now destruct (dict_get field conv).
  - cbn [fold_left]. rewrite IH.
    unfold SemanticScholarPaper.default_step, dict_has. cbn [fst snd dict_get].
    destruct (String.eqb field k0) eqn:E.
    + apply String.eqb_eq in E. subst k0.
      destruct (dict_get field conv) eqn:Eg; [now rewrite Eg|].
      now rewrite dict_get_set, String.eqb_refl.
    + destruct (dict_get k0 conv); [reflexivity|].
      now rewrite dict_get_set, E.
Qed.

Lemma defaults_keys (defaults conv : dict) :
  forallb (fun k => mem k SemanticScholarPaper.valid_fields) (keys defaults)
  = true ->
  forallb (fun k => mem k SemanticScholarPaper.valid_fields) (keys conv)
  = true ->
  forallb (fun k => mem k SemanticScholarPaper.valid_fields)
    (keys (fold_left SemanticScholarPaper.default_step defaults conv)) = true.
Proof.
  revert conv. induction defaults as [|[k0 v0] defaults IH]; intros conv Hd Hc.
  - exact Hc.
  - cbn [fold_left]. simpl in Hd. apply andb_true_iff in Hd as [H0 Hd].
    apply IH; [exact Hd|].
    unfold SemanticScholarPaper.default_step. cbn [fst snd].
    destruct (dict_has k0 conv); [exact Hc|].
    now apply keys_set_allowed.
Qed.

(** The keywords that [from_dict] hands to the constructor. *)
Lemma paper_convert_spec (data : dict) :
  unexpected_keyword SemanticScholarPaper.valid_fields
    (SemanticScholarPaper.convert data) = false
  /\ forall field,
       mem field SemanticScholarPaper.valid_fields = true ->
       dict_get field (SemanticScholarPaper.convert data)
       = match supplied SemanticScholarPaper.field_mapping data field with
         | Some v => Some v
         | None => dict_get field SemanticScholarPaper.defaults
         end.
Proof.
  unfold SemanticScholarPaper.convert. split.
  - unfold unexpected_keyword. rewrite defaults_keys; auto.
    now apply paper_convert_keys.
  - intros field Hf. rewrite defaults_get, (paper_convert_get field Hf).
    reflexivity.
Qed.

(** The generated constructors, by the keywords they are given. *)

Ltac supplied_or_absurd kw Hreq f :=
  let E := fresh "E" in
  destruct (dict_get f kw) eqn:E;
  [ | exfalso; apply (Hreq f); [simpl; tauto | exact E] ].

Ltac supplied_or_raise kw f :=
  let E := fresh "E" in
  destruct (dict_get f kw) eqn:E; [try congruence | reflexivity].

Ltac read_field kw :=
  cbn;
  match goal with
  | H : dict_get ?f kw = _ |- context [dict_get ?f kw] => rewrite H
  end;
  reflexivity.

Lemma paper_init_ok (kw : dict) :
  unexpected_keyword SemanticScholarPaper.valid_fields kw = false ->
  (forall f, In f required_fields -> dict_get f kw <> None) ->
  exists p,
    SemanticScholarPaper.init kw = Ok p
    /\ forall f,
         In f SemanticScholarPaper.valid_fields ->
         dict_get f (SemanticScholarPaper.to_dict p)
         = Some (match dict_get f kw with Some v => v | None => JNull end).
Proof.
  intros Hu Hreq. unfold SemanticScholarPaper.init. rewrite Hu.
  unfold required, defaulted.
  supplied_or_absurd kw Hreq "paper_id".
  supplied_or_absurd kw Hreq "title".
  supplied_or_absurd kw Hreq "abstract".
  supplied_or_absurd kw Hreq "authors".
  supplied_or_absurd kw Hreq "year".
  supplied_or_absurd kw Hreq "citation_count".
  supplied_or_absurd kw Hreq "reference_count".
  supplied_or_absurd kw Hreq "influential_citation_count".
  supplied_or_absurd kw Hreq "venue".
  supplied_or_absurd kw Hreq "url".
  supplied_or_absurd kw Hreq "arxiv_id".
  supplied_or_absurd kw Hreq "doi".
  supplied_or_absurd kw Hreq "corpus_id".
  supplied_or_absurd kw Hreq "external_ids".
  supplied_or_absurd kw Hreq "publication_types".
  supplied_or_absurd kw Hreq "publication_date".
  supplied_or_absurd kw Hreq "journal".
  destruct (dict_get "citations" kw) eqn:E18;
    destruct (dict_get "references" kw) eqn:E19;
    destruct (dict_get "embedding" kw) eqn:E20;
    destruct (dict_get "tldr" kw) eqn:E21;
    (eexists; split; [reflexivity|];
     intros f Hin; simpl in Hin;
     repeat (destruct Hin as [<- | Hin]; [read_field kw|]);
     contradiction).
Qed.

Lemma paper_init_missing (kw : dict) (f : string) :
  In f required_fields -> dict_get f kw = None ->
  SemanticScholarPaper.init kw = Raised TypeError.
Proof.
  intros Hin Hf. unfold SemanticScholarPaper.init.
  destruct (unexpected_keyword _ _); [reflexivity|].
  unfold required.
  simpl in Hin.
  repeat (destruct Hin as [<- | Hin];
          [ supplied_or_raise kw "paper_id";
            supplied_or_raise kw "title";
            supplied_or_raise kw "abstract";
            supplied_or_raise kw "authors";
            supplied_or_raise kw "year";
            supplied_or_raise kw "citation_count";
            supplied_or_raise kw "reference_count";
            supplied_or_raise kw "influential_citation_count";
            supplied_or_raise kw "venue";
            supplied_or_raise kw "url";
            supplied_or_raise kw "arxiv_id";
            supplied_or_raise kw "doi";
            supplied_or_raise kw "corpus_id";
            supplied_or_raise kw "external_ids";
            supplied_or_raise kw "publication_types";
            supplied_or_raise kw "publication_date";
            supplied_or_raise kw "journal" | ]).
  contradiction.
Qed.

(** X7.  [SemanticScholarPaper.from_dict] on a dictionary succeeds exactly
    when the payload supplies, under the API name or the field name, each
    of the ten fields [needed_fields]; it raises [TypeError] otherwise.
    In the record every field holds the value of the last payload entry
    that names it, or else its default: 0 for the three counts, the empty
    list for [authors], null for the rest.  Keys that name no field do not
    matter. *)
Theorem paper_from_dict_field_by_field :
  forall data : dict,
    ((forall f, In f needed_fields ->
                supplied SemanticScholarPaper.field_mapping data f <> None) ->
     exists p,
       SemanticScholarPaper.from_dict (JDict data) = Ok p
       /\ forall f,
            In f SemanticScholarPaper.valid_fields ->
            dict_get f (SemanticScholarPaper.to_dict p)
            = Some (match supplied SemanticScholarPaper.field_mapping data f
                    with
                    | Some v => v
                    | None => default_of f
                    end))
    /\ ((exists f, In f needed_fields
                   /\ supplied SemanticScholarPaper.field_mapping data f = None)
        -> SemanticScholarPaper.from_dict (JDict data) = Raised TypeError).
Proof.
  intros data.
  destruct (paper_convert_spec data) as [Hu Hget].
  assert (Hvalid : forall f, In f SemanticScholarPaper.valid_fields ->
                             mem f SemanticScholarPaper.valid_fields = true).
  { intros f Hin. unfold mem. apply existsb_exists. exists f.
    split; [exact Hin | apply String.eqb_refl]. }
  split.
  - intros Hsup.
    destruct (paper_init_ok (SemanticScholarPaper.convert data) Hu)
      as (p & Hp & Hfields).
    { intros f Hin. rewrite Hget.
      - destruct (supplied SemanticScholarPaper.field_mapping data f) eqn:Es;
          [discriminate|].
        simpl in Hin.
        repeat (destruct Hin as [<- | Hin];
                [ first [ simpl; discriminate
                        | exfalso; eapply Hsup; [|exact Es]; simpl; tauto ] | ]).
        contradiction.
      - apply Hvalid. simpl in Hin. simpl. tauto. }
    exists p. split; [exact Hp|].
    intros f Hin. rewrite (Hfields f Hin), (Hget f (Hvalid f Hin)).
    unfold default_of.
    destruct (supplied SemanticScholarPaper.field_mapping data f);
      [reflexivity|].
    now destruct (dict_get f SemanticScholarPaper.defaults).
  - intros (f & Hin & Hnone). unfold SemanticScholarPaper.from_dict.
    apply (paper_init_missing _ f).
    + simpl in Hin. simpl. tauto.
    + rewrite Hget.
      * rewrite Hnone. simpl in Hin.
        repeat (destruct Hin as [<- | Hin]; [reflexivity|]). contradiction.
      * apply Hvalid. simpl in Hin. simpl. tauto.
Qed.

Lemma paper_from_dict_field_by_field_witness :
  exists p,
    SemanticScholarPaper.from_dict (paper_payload "id1") = Ok p
    /\ forall f,
         In f SemanticScholarPaper.valid_fields ->
         dict_get f (SemanticScholarPaper.to_dict p)
         = Some (match
                   supplied SemanticScholarPaper.field_mapping
                     [ ("paperId", JStr "id1"); ("title", JStr "Attention");
                       ("abstract", JNull);
                       ("authors",
                        JList [JDict [("authorId", JStr "1");
                                      ("name", JStr "A")]]);
                       ("year", JInt 2017); ("citationCount", JInt 5);
                       ("referenceCount", JInt 40);
                       ("influentialCitationCount", JInt 1);
                       ("venue", JStr "NeurIPS"); ("url", JNull);
                       ("externalIds", JNull); ("publicationTypes", JNull);
                       ("publicationDate", JNull); ("journal", JNull);
                       ("tldr", JNull); ("embedding", JNull) ] f
                 with
                 | Some v => v
                 | None => default_of f
                 end).
Proof.
  apply (proj1 (paper_from_dict_field_by_field
                  [ ("paperId", JStr "id1"); ("title", JStr "Attention");
                    ("abstract", JNull);
                    ("authors",
                     JList [JDict [("authorId", JStr "1");
                                   ("name", JStr "A")]]);
                    ("year", JInt 2017); ("citationCount", JInt 5);
                    ("referenceCount", JInt 40);
                    ("influentialCitationCount", JInt 1);
                    ("venue", JStr "NeurIPS"); ("url", JNull);
                    ("externalIds", JNull); ("publicationTypes", JNull);
                    ("publicationDate", JNull); ("journal", JNull);
                    ("tldr", JNull); ("embedding", JNull) ])).
  intros f Hin. simpl in Hin.
  repeat (destruct Hin as [<- | Hin]; [discriminate|]). contradiction.
Defined.

(** ** AuthorInfo.from_dict, field by field *)

Lemma author_convert_get (field : string) (data : dict) (acc : dict) :
  dict_get field (fold_left AuthorInfo.convert_step data acc)
  = fold_left
      (fun found kv =>
         if String.eqb (mapping_get AuthorInfo.field_mapping (fst kv)) field
         then Some (snd kv) else found)
      data (dict_get field acc).
Proof.
  revert acc. induction data as [|[key v] data IH]; intros acc; [reflexivity|].
  cbn [fold_left]. rewrite IH. f_equal.
  unfold AuthorInfo.convert_step. cbn [fst snd].
  now rewrite dict_get_set, String.eqb_sym.
Qed.

Lemma author_convert_keys (data : dict) (acc : dict) :
  (forall key, In key (keys data) ->
     mem (mapping_get AuthorInfo.field_mapping key) AuthorInfo.fields = true) ->
  forallb (fun k => mem k AuthorInfo.fields) (keys acc) = true ->
  forallb (fun k => mem k AuthorInfo.fields)
    (keys (fold_left AuthorInfo.convert_step data acc)) = true.
Proof.
  revert acc. induction data as [|[key v] data IH]; intros acc Hk H; [exact H|].
  cbn [fold_left]. apply IH.
  - intros k Hin. apply Hk. simpl. now right.
  - unfold AuthorInfo.convert_step. apply keys_set_allowed; [|exact H].
    apply Hk. simpl. now left.
Qed.

Lemma author_init_ok (kw : dict) :
  unexpected_keyword AuthorInfo.fields kw = false ->
  (forall f, In f AuthorInfo.fields -> dict_get f kw <> None) ->
  exists a,
    AuthorInfo.init kw = Ok a
    /\ forall f, In f AuthorInfo.fields ->
                 dict_get f (AuthorInfo.to_dict a) = dict_get f kw.
Proof.
  intros Hu Hreq. unfold AuthorInfo.init. rewrite Hu. unfold required.
  supplied_or_absurd kw Hreq "author_id".
  supplied_or_absurd kw Hreq "name".
  supplied_or_absurd kw Hreq "aliases".
  supplied_or_absurd kw Hreq "affiliations".
  supplied_or_absurd kw Hreq "homepage".
  supplied_or_absurd kw Hreq "paper_count".
  supplied_or_absurd kw Hreq "citation_count".
  supplied_or_absurd kw Hreq "h_index".
  eexists. split; [reflexivity|].
  intros f Hin. simpl in Hin.
  repeat (destruct Hin as [<- | Hin]; [read_field kw|]).
  contradiction.
Qed.

Lemma author_init_missing (kw : dict) (f : string) :
  In f AuthorInfo.fields -> dict_get f kw = None ->
  AuthorInfo.init kw = Raised TypeError.
Proof.
  intros Hin Hf. unfold AuthorInfo.init.
  destruct (unexpected_keyword _ _); [reflexivity|].
  unfold required. simpl in Hin.
  repeat (destruct Hin as [<- | Hin];
          [ supplied_or_raise kw "author_id";
            supplied_or_raise kw "name";
            supplied_or_raise kw "aliases";
            supplied_or_raise kw "affiliations";
            supplied_or_raise kw "homepage";
            supplied_or_raise kw "paper_count";
            supplied_or_raise kw "citation_count";
            supplied_or_raise kw "h_index" | ]).
  contradiction.
Qed.

(** X8.  [AuthorInfo.from_dict] on a dictionary succeeds exactly when every
    key, once renamed, is one of the eight fields and every field is
    supplied; each field then holds the value of the last entry that names
    it.  In every other case it raises [TypeError]: no field has a
    default. *)
Theorem author_from_dict_field_by_field :
  forall data : dict,
    ((forall key, In key (keys data) ->
        mem (mapping_get AuthorInfo.field_mapping key) AuthorInfo.fields
        = true) ->
     (forall f, In f AuthorInfo.fields ->
                supplied AuthorInfo.field_mapping data f <> None) ->
     exists a,
       AuthorInfo.from_dict (JDict data) = Ok a
       /\ forall f, In f AuthorInfo.fields ->
                    dict_get f (AuthorInfo.to_dict a)
                    = supplied AuthorInfo.field_mapping data f)
    /\ ((exists key, In key (keys data)
                     /\ mem (mapping_get AuthorInfo.field_mapping key)
                            AuthorInfo.fields = false)
        \/ (exists f, In f AuthorInfo.fields
                      /\ supplied AuthorInfo.field_mapping data f = None)
        -> AuthorInfo.from_dict (JDict data) = Raised TypeError).
Proof.
  intros data.
  assert (Hget : forall f,
             dict_get f (AuthorInfo.convert data)
             = supplied AuthorInfo.field_mapping data f).
  { intros f. unfold AuthorInfo.convert. now rewrite author_convert_get. }
  split.
  - intros Hkeys Hsup.
    destruct (author_init_ok (AuthorInfo.convert data)) as (a & Ha & Hf).
    + unfold unexpected_keyword, AuthorInfo.convert.
      now rewrite author_convert_keys.
    + intros f Hin. rewrite Hget. now apply Hsup.
    + exists a. split; [exact Ha|].
      intros f Hin. now rewrite (Hf f Hin), Hget.
  - intros [(key & Hin & Hmem) | (f & Hin & Hnone)];
      unfold AuthorInfo.from_dict.
    + unfold AuthorInfo.init.
      rewrite (unexpected_keyword_intro AuthorInfo.fields _
                 (mapping_get AuthorInfo.field_mapping key)); auto.
      apply dict_has_keys. unfold AuthorInfo.convert.
      now apply author_convert_has.
    + apply (author_init_missing _ f Hin). now rewrite Hget.
Qed.

Lemma author_from_dict_field_by_field_witness :
  exists a,
    AuthorInfo.from_dict
      (JDict [ ("authorId", JStr "1"); ("name", JStr "A"); ("aliases", JNull);
               ("affiliations", JList []); ("homepage", JNull);
               ("paperCount", JInt 3); ("citationCount", JInt 7);
               ("hIndex", JInt 2) ]) = Ok a
    /\ forall f, In f AuthorInfo.fields ->
                 dict_get f (AuthorInfo.to_dict a)
                 = supplied AuthorInfo.field_mapping
                     [ ("authorId", JStr "1"); ("name", JStr "A");
                       ("aliases", JNull); ("affiliations", JList []);
                       ("homepage", JNull); ("paperCount", JInt 3);
                       ("citationCount", JInt 7); ("hIndex", JInt 2) ] f.
Proof.
  apply (proj1 (author_from_dict_field_by_field
                  [ ("authorId", JStr "1"); ("name", JStr "A");
                    ("aliases", JNull); ("affiliations", JList []);
                    ("homepage", JNull); ("paperCount", JInt 3);
                    ("citationCount", JInt 7); ("hIndex", JInt 2) ])).
  - intros key Hin. simpl in Hin.
    repeat (destruct Hin as [<- | Hin]; [reflexivity|]). contradiction.
  - intros f Hin. simpl in Hin.
    repeat (destruct Hin as [<- | Hin]; [discriminate|]). contradiction.
Defined.

(** X9.  Serializing an [AuthorInfo] record with [to_dict] and reading the
    dictionary back with [from_dict] gives the record back. *)
Theorem author_to_dict_from_dict :
  forall a : AuthorInfo.t,
    AuthorInfo.from_dict (JDict (AuthorInfo.to_dict a)) = Ok a.
Proof. intros a. destruct a. reflexivity. Qed.

(** ** RateLimiter.wait, call after call *)

Lemma wait_effect (self : RateLimiterState.t) (w : World) :
  (forall n, 0 <= oversleep w n)%Q ->
  exists self' w',
    RateLimiter.wait self w = (Ok self', w')
    /\ RateLimiterState.delay self' = RateLimiterState.delay self
    /\ RateLimiterState.last_request_time self' = clock w'
    /\ (RateLimiterState.last_request_time self + RateLimiterState.delay self
        <= clock w')%Q
    /\ oversleep w' = oversleep w.
Proof.
  intros Hover. destruct self as [d last].
  unfold RateLimiter.wait, bind, time_time, ret. simpl.
  destruct (Qltb (clock w - last) d) eqn:E.
  - apply Qltb_true in E. simpl.
    eexists. eexists. split; [reflexivity|]. simpl.
    split; [reflexivity|]. split; [reflexivity|]. split; [|reflexivity].
    rewrite suspended_for_pos by lra.
    specialize (Hover (List.length (sleep_log w))). lra.
  - apply Qltb_false in E. simpl.
    eexists. eexists. split; [reflexivity|]. simpl.
    split; [reflexivity|]. split; [reflexivity|]. split; [lra | reflexivity].
Qed.

(** X10.  [n] calls of [wait()] in a row on one instance with delay [d]
    move its [last_request_time] forward by at least [n * d]: a client
    cannot issue [n] requests in less than [(n - 1) * d] seconds.  After at
    least one call, [last_request_time] is the clock reading at which the
    last call returned. *)
Theorem rate_limiter_n_waits :
  forall (n : nat) (self : RateLimiterState.t) (w : World),
    (forall i, 0 <= oversleep w i)%Q ->
    exists self' w',
      wait_times n self w = (Ok self', w')
      /\ RateLimiterState.delay self' = RateLimiterState.delay self
      /\ (0 < n -> RateLimiterState.last_request_time self' = clock w')
      /\ (RateLimiterState.last_request_time self
          + inject_Z (Z.of_nat n) * RateLimiterState.delay self
          <= RateLimiterState.last_request_time self')%Q.
Proof.
  induction n as [|n IH]; intros self w Hover.
  - exists self, w. split; [reflexivity|]. split; [reflexivity|].
    split; [lia|]. change (inject_Z (Z.of_nat 0)) with 0%Q. lra.
  - destruct (wait_effect self w Hover) as (s1 & w1 & Hw & Hd & Hl & Hsp & Ho).
    destruct (IH s1 w1) as (s2 & w2 & Hw2 & Hd2 & Hl2 & Hsp2).
    { intros i. rewrite Ho. apply Hover. }
    exists s2, w2. cbn [wait_times]. unfold bind at 1. rewrite Hw.
    split; [exact Hw2|]. split; [congruence|]. split.
    + intros _. destruct n as [|n].
      * simpl in Hw2. unfold ret in Hw2. injection Hw2 as <- <-. exact Hl.
      * apply Hl2. lia.
    + rewrite Nat2Z.inj_succ. unfold Z.succ. rewrite inject_Z_plus.
      rewrite Hd in Hsp2. rewrite Hl in Hsp2.
      change (inject_Z 1) with 1%Q. nra.
Qed.

Lemma rate_limiter_n_waits_witness :
  exists self' w',
    wait_times 3 (RateLimiter.init 1) fresh_world = (Ok self', w')
    /\ RateLimiterState.delay self'
       = RateLimiterState.delay (RateLimiter.init 1)
    /\ (0 < 3 -> RateLimiterState.last_request_time self' = clock w')
    /\ (RateLimiterState.last_request_time (RateLimiter.init 1)
        + inject_Z (Z.of_nat 3) * RateLimiterState.delay (RateLimiter.init 1)
        <= RateLimiterState.last_request_time self')%Q.
Proof.
  apply (rate_limiter_n_waits 3 (RateLimiter.init 1) fresh_world).
  intros i. simpl. apply Qle_refl.
Defined.

(** ** SemanticScholarPaper.get_author_names *)

Lemma names_of_dicts (l : list json) :
  Forall (fun a => exists d, a = JDict d) l ->
  exists names,
    names_of l = Ok names
    /\ Forall (fun n => truthy n = true) names
    /\ List.length names <= List.length l
    /\ (forall n, In n names ->
          exists d, In (JDict d) l /\ dict_get "name" d = Some n)
    /\ (forall d n, In (JDict d) l -> dict_get "name" d = Some n ->
          truthy n = true -> In n names).
Proof.
  induction 1 as [|a l (d & ->) _ IH].
  - exists []. split; [reflexivity|]. split; [constructor|].
    split; [simpl; lia|]. split; [intros n [] | intros d n []].
  - destruct IH as (names & Hn & Ht & Hlen & Hsound & Hcomplete).
    cbn [names_of py_get obind].
    destruct (dict_get "name" d) as [v|] eqn:Ev.
    + cbn [obind]. destruct (truthy v) eqn:Etv.
      * rewrite Hn. cbn [obind]. exists (v :: names).
        split; [reflexivity|]. split; [now constructor|].
        split; [simpl; lia|]. split.
        -- intros n [<- | Hin].
           ++ exists d. split; [now left | exact Ev].
           ++ destruct (Hsound n Hin) as (d' & Hd' & Hg).
              exists d'. split; [now right | exact Hg].
        -- intros d' n [[= <-] | Hin] Hg Htn.
           ++ left. congruence.
           ++ right. eapply Hcomplete; eauto.
      * exists names. split; [exact Hn|]. split; [exact Ht|].
        split; [simpl; lia|]. split.
        -- intros n Hin. destruct (Hsound n Hin) as (d' & Hd' & Hg).
           exists d'. split; [now right | exact Hg].
        -- intros d' n [[= <-] | Hin] Hg Htn.
           ++ congruence.
           ++ eapply Hcomplete; eauto.
    + cbn [obind truthy]. exists names. split; [exact Hn|]. split; [exact Ht|].
      split; [simpl; lia|]. split.
      * intros n Hin. destruct (Hsound n Hin) as (d' & Hd' & Hg).
        exists d'. split; [now right | exact Hg].
      * intros d' n [[= <-] | Hin] Hg Htn.
        -- congruence.
        -- eapply Hcomplete; eauto.
Qed.

Lemma names_of_not_dict (l : list json) (a : json) :
  In a l -> (forall d, a <> JDict d) ->
  names_of l = Raised AttributeError.
Proof.
  intros Hin Ha. induction l as [|b l IH]; [contradiction|].
  destruct Hin as [-> | Hin].
  - destruct a; try reflexivity. exfalso. now apply (Ha d).
  - specialize (IH Hin). cbn [names_of].
    destruct b; try reflexivity.
    cbn [py_get]. destruct (dict_get "name" d) as [v|]; cbn [obind truthy].
    + destruct (truthy v); [|exact IH]. now rewrite IH.
    + exact IH.
Qed.

(** X11.  For a paper whose [authors] is a list of dictionaries,
    [get_author_names] raises nothing and returns, never more names than
    authors, exactly the values under ['name'] that are truthy: every name
    returned is the truthy name of some author, and every author with a
    truthy name is there.  A list with an author that is not a dictionary
    makes it raise [AttributeError]. *)
Theorem get_author_names_spec :
  forall (p : SemanticScholarPaper.t) (l : list json),
    SemanticScholarPaper.authors p = JList l ->
    (Forall (fun a => exists d, a = JDict d) l ->
     exists names,
       get_author_names p = Ok names
       /\ Forall (fun n => truthy n = true) names
       /\ List.length names <= List.length l
       /\ (forall n, In n names ->
             exists d, In (JDict d) l /\ dict_get "name" d = Some n)
       /\ (forall d n, In (JDict d) l -> dict_get "name" d = Some n ->
             truthy n = true -> In n names))
    /\ ((exists a, In a l /\ forall d, a <> JDict d) ->
        get_author_names p = Raised AttributeError).
Proof.
  intros p l Hp. unfold get_author_names. rewrite Hp. cbn [py_iter obind].
  split.
  - apply names_of_dicts.
  - intros (a & Hin & Ha). now apply (names_of_not_dict l a).
Qed.

Lemma get_author_names_spec_witness :
  exists names,
    get_author_names (paper_record "id1") = Ok names
    /\ Forall (fun n => truthy n = true) names
    /\ List.length names
       <= List.length [JDict [("authorId", JStr "1"); ("name", JStr "A")]]
    /\ (forall n, In n names ->
          exists d,
            In (JDict d) [JDict [("authorId", JStr "1"); ("name", JStr "A")]]
            /\ dict_get "name" d = Some n)
    /\ (forall d n,
          In (JDict d) [JDict [("authorId", JStr "1"); ("name", JStr "A")]] ->
          dict_get "name" d = Some n -> truthy n = true -> In n names).
Proof.
  apply (proj1 (get_author_names_spec (paper_record "id1")
                  [JDict [("authorId", JStr "1"); ("name", JStr "A")]]
                  eq_refl)).
  constructor; [|constructor]. eexists. reflexivity.
Defined.

(** ** format_authors *)

Lemma py_join_strings (sep : string) (l : list string) :
  py_join sep (map JStr l) = Ok (String.concat sep l).
Proof.
  induction l as [|s l IH]; [reflexivity|].
  destruct l as [|s' l]; [reflexivity|].
  change (py_join sep (map JStr (s :: s' :: l)))
    with (let! r := py_join sep (map JStr (s' :: l)) in
          Ok (s ++ sep ++ r)%string).
  rewrite IH. reflexivity.
Qed.

Lemma display_names_named (py_str_of : json -> string)
    (authors : list json) (names : list string) :
  Forall2 (fun a n => exists d, a = JDict d
                                /\ dict_get "name" d = Some (JStr n))
          authors names ->
  Forall (fun n => n <> "") names ->
  display_names py_str_of authors = map JStr names.
Proof.
  induction 1 as [|a n authors names (d & -> & Hd) _ IH]; intros Hne.
  - reflexivity.
  - inversion Hne as [|? ? Hn Hrest]; subst.
    cbn [display_names display_name]. rewrite Hd. cbn [truthy].
    apply String.eqb_neq in Hn. rewrite Hn. cbn [negb map].
    now rewrite IH.
Qed.

Lemma display_names_nameless (py_str_of : json -> string)
    (authors : list json) :
  Forall (fun a => exists d, a = JDict d
                             /\ (dict_get "name" d = None
                                 \/ dict_get "name" d = Some (JStr "")))
         authors ->
  display_names py_str_of authors = [].
Proof.
  induction 1 as [|a authors (d & -> & Hd) _ IH]; [reflexivity|].
  cbn [display_names display_name].
  destruct Hd as [-> | ->]; exact IH.
Qed.

(** X12.  For authors that are dictionaries with a non-empty string under
    ['name'], [format_authors] joins the names with [", "] when there are at
    most three and otherwise shows the first three followed by
    [", et al."].  The empty list gives ["Unknown"], but a non-empty list
    of dictionaries without a usable name gives the empty string. *)
Theorem format_authors_shows_three :
  forall (py_str_of : json -> string),
    (forall (authors : list json) (names : list string),
        names <> [] ->
        Forall (fun n => n <> "") names ->
        Forall2 (fun a n => exists d, a = JDict d
                                      /\ dict_get "name" d = Some (JStr n))
                authors names ->
        format_authors py_str_of authors
        = Ok (if (List.length names <=? 3)%nat
              then String.concat ", " names
              else (String.concat ", " (firstn 3 names) ++ ", et al.")%string))
    /\ format_authors py_str_of [] = Ok "Unknown"
    /\ (forall authors : list json,
          authors <> [] ->
          Forall (fun a => exists d, a = JDict d
                                     /\ (dict_get "name" d = None
                                         \/ dict_get "name" d = Some (JStr "")))
                 authors ->
          format_authors py_str_of authors = Ok "").
Proof.
  intros py_str_of. split; [|split].
  - intros authors names Hne Hnames Hrel.
    assert (Ha : authors <> []).
    { intros ->. inversion Hrel. subst. congruence. }
    unfold format_authors. destruct authors as [|a authors]; [congruence|].
    rewrite (display_names_named py_str_of _ _ Hrel Hnames).
    rewrite length_map.
    destruct (List.length names <=? 3)%nat.
    + apply py_join_strings.
    + rewrite firstn_map, py_join_strings. reflexivity.
  - reflexivity.
  - intros authors Hne Hall. unfold format_authors.
    destruct authors as [|a authors]; [congruence|].
    now rewrite (display_names_nameless py_str_of _ Hall).
Qed.

Lemma format_authors_shows_three_witness :
  format_authors (fun _ => "?")
    [ JDict [("name", JStr "Ada")]; JDict [("name", JStr "Bob")];
      JDict [("name", JStr "Cy")]; JDict [("name", JStr "Di")] ]
  = Ok (if (List.length ["Ada"; "Bob"; "Cy"; "Di"] <=? 3)%nat
        then String.concat ", " ["Ada"; "Bob"; "Cy"; "Di"]
        else (String.concat ", " (firstn 3 ["Ada"; "Bob"; "Cy"; "Di"])
              ++ ", et al.")%string).
Proof.
  apply (proj1 (format_authors_shows_three (fun _ => "?"))).
  - discriminate.
  - repeat constructor; discriminate.
  - repeat (constructor; [eexists; split; reflexivity|]). constructor.
Defined.

(** ** get_paper: the requests sent and where the result comes from *)

Section RequestLoop.

Variable server : server_t.
Variable rq : request.
Variable max_retries : Z.
Variable backoff_factor : Q.

Let make_request : M response :=
  SemanticScholarClient.rate_limiter_wait ;;; send server rq.

(** The retry loop around a request closure of the client sends the same
    request up to [S n] times, the answer to the last one decides. *)
Lemma loop_requests :
  forall (n a : nat) (w : World),
    Z.of_nat (a + n) = max_retries ->
    exists k : nat,
      1 <= k <= S n
      /\ request_log
           (snd (retry_loop make_request max_retries backoff_factor
                   (seq a (S n)) w))
         = request_log w ++ repeat rq k
      /\ match fst (retry_loop make_request max_retries backoff_factor
                      (seq a (S n)) w)
         with
         | Ok (Some resp) =>
             server (List.length (request_log w) + (k - 1)) rq = Ok resp
         | Ok None => False
         | Raised e =>
             server (List.length (request_log w) + (k - 1)) rq = Raised e
             /\ k = S n
         end.
Proof.
  induction n as [|n IH]; intros a w Ha.
  - simpl seq. rewrite loop_cons.
    destruct (make_request_sends server rq w) as (w1 & Hsend & Hlog & _).
    fold make_request in Hsend.
    destruct (attempt_body_cases make_request max_retries backoff_factor a w)
      as [(resp & w1' & Hop & _ & Hb) | [(resp & w1' & Hop & _ & Hlt & _)
         | [(e & w1' & Hop & Hlt & _) | (e & w1' & Hop & _ & Hb)]]];
      try lia; rewrite Hb; rewrite Hsend in Hop; injection Hop as Hs <-;
      exists 1; simpl; rewrite Nat.add_0_r;
      (split; [lia|]); (split; [exact Hlog|]); auto.
  - simpl seq. rewrite loop_cons.
    destruct (make_request_sends server rq w) as (w1 & Hsend & Hlog & _).
    fold make_request in Hsend.
    destruct (attempt_body_cases make_request max_retries backoff_factor a w)
      as [(resp & w1' & Hop & _ & Hb) | [(resp & w1' & Hop & _ & Hlt & Hb)
         | [(e & w1' & Hop & Hlt & Hb) | (e & w1' & Hop & Hge & _)]]];
      try lia; rewrite Hb; rewrite Hsend in Hop; injection Hop as Hs <-.
    + exists 1. simpl. rewrite Nat.add_0_r.
      split; [lia|]. split; [exact Hlog|]. exact Hs.
    + remember (snd (asyncio_sleep (backoff_factor ^ Z.of_nat a)%Q w1))
        as w2 eqn:Ew2.
      assert (Hlog2 : request_log w2 = request_log w ++ [rq])
        by (subst w2; exact Hlog).
      destruct (IH (S a) w2) as (k & Hk & Hl & Hm); [lia|].
      change (seq (S a) (S n)) with (S a :: seq (S (S a)) n) in *.
      rewrite Hlog2 in Hl, Hm. rewrite length_app in Hm.
      change (List.length [rq]) with 1 in Hm.
      exists (S k). split; [lia|]. split.
      * rewrite Hl, <- app_assoc. reflexivity.
      * replace (List.length (request_log w) + (S k - 1))
          with (List.length (request_log w) + 1 + (k - 1)) by lia.
        destruct (fst (retry_loop _ _ _ _ _)) as [[resp'|]|e']; auto.
        destruct Hm as [Hm Hk']. split; [exact Hm | lia].
    + remember (snd (asyncio_sleep (backoff_factor ^ Z.of_nat a)%Q w1))
        as w2 eqn:Ew2.
      assert (Hlog2 : request_log w2 = request_log w ++ [rq])
        by (subst w2; exact Hlog).
      destruct (IH (S a) w2) as (k & Hk & Hl & Hm); [lia|].
      change (seq (S a) (S n)) with (S a :: seq (S (S a)) n) in *.
      rewrite Hlog2 in Hl, Hm. rewrite length_app in Hm.
      change (List.length [rq]) with 1 in Hm.
      exists (S k). split; [lia|]. split.
      * rewrite Hl, <- app_assoc. reflexivity.
      * replace (List.length (request_log w) + (S k - 1))
          with (List.length (request_log w) + 1 + (k - 1)) by lia.
        destruct (fst (retry_loop _ _ _ _ _)) as [[resp'|]|e']; auto.
        destruct Hm as [Hm Hk']. split; [exact Hm | lia].
Qed.

End RequestLoop.

(** X13.  Whatever the network does, [get_paper] sends the same GET
    request between one and four times and nothing else, and its result is
    decided by the answer to the last of them: a record only when that
    answer has status 200 and a body that normalizes to it, [None] only
    when that answer has another status, and an exception only when the
    fourth request raised it or when the body of a 200 answer could not be
    read or normalized. *)
Theorem get_paper_requests_and_result :
  forall (server : server_t) (paper_id : string)
         (fields : option (list string)) (w : World),
    exists k : nat,
      1 <= k <= 4
      /\ request_log
           (snd (SemanticScholarClient.get_paper server paper_id fields w))
         = request_log w
           ++ repeat
                (Get (SemanticScholarClient.paper_url paper_id
                        (requested_fields fields))) k
      /\ let last :=
           server (List.length (request_log w) + (k - 1))
             (Get (SemanticScholarClient.paper_url paper_id
                     (requested_fields fields))) in
         match fst (SemanticScholarClient.get_paper server paper_id fields w)
         with
         | Ok (Some p) =>
             exists resp data,
               last = Ok resp /\ status resp = 200%Z
               /\ body resp = Ok data
               /\ SemanticScholarPaper.from_dict data = Ok p
         | Ok None =>
             exists resp, last = Ok resp /\ status resp <> 200%Z
         | Raised e =>
             (last = Raised e /\ k = 4)
             \/ exists resp,
                  last = Ok resp /\ status resp = 200%Z
                  /\ (body resp = Raised e
                      \/ exists data,
                           body resp = Ok data
                           /\ SemanticScholarPaper.from_dict data = Raised e)
         end.
Proof.
  intros server paper_id fields w.
  unfold SemanticScholarClient.get_paper, handle_rate_limit_retry.
  fold (requested_fields fields).
  set (rq := Get _).
  change (seq 0 (Z.to_nat (Config.MAX_RETRIES + 1))) with (seq 0 4).
  destruct (loop_requests server rq Config.MAX_RETRIES Config.BACKOFF_FACTOR
              3 0 w eq_refl) as (k & Hk & Hlog & Hm).
  exists k. split; [exact Hk|]. cbv zeta.
  unfold bind, lift, ret.
  destruct (retry_loop _ _ _ (seq 0 4) w) as [[[resp|]|e] w'] eqn:El;
    cbn [fst snd] in Hlog, Hm.
  - destruct (Z.eqb_spec (status resp) 200) as [H200|H200].
    + destruct (body resp) as [data|e] eqn:Eb.
      * destruct (SemanticScholarPaper.from_dict data) as [p|e] eqn:Ef;
          cbn [fst snd]; (split; [exact Hlog|]).
        -- exists resp, data. auto.
        -- right. exists resp. split; [exact Hm|]. split; [exact H200|].
           right. exists data. auto.
      * cbn [fst snd]. split; [exact Hlog|]. right. exists resp. auto.
    + cbn [fst snd]. split; [exact Hlog|]. exists resp. auto.
  - contradiction.
  - cbn [fst snd]. split; [exact Hlog|]. left. exact Hm.
Qed.

(** ** get_paper_bulk when the requests fail by status *)

Lemma fetch_chunk_not_200 (server : server_t) (fields chunk : list string)
    (acc : list SemanticScholarPaper.t) (w : World) :
  (forall n rq, exists resp, server n rq = Ok resp /\ status resp <> 200%Z) ->
  exists w',
    SemanticScholarClient.fetch_chunk server fields chunk acc w = (Ok acc, w').
Proof.
  intros Hserver. unfold SemanticScholarClient.fetch_chunk,
    handle_rate_limit_retry.
  set (rq := Post _ _). set (attempts := seq _ _).
  destruct (loop_never_200
              (SemanticScholarClient.rate_limiter_wait ;;; send server rq)
              Config.MAX_RETRIES Config.BACKOFF_FACTOR) with
    (attempts := attempts) (w := w) as (r & w' & Hl & Hst).
  { intros w0. destruct (make_request_sends server rq w0) as (w1 & Hw & _).
    destruct (Hserver (List.length (request_log w0)) rq) as (resp & Hr & Hs).
    exists resp, w1. rewrite Hw, Hr. auto. }
  exists w'. unfold bind at 1. rewrite Hl.
  destruct r as [resp|]; [|reflexivity].
  specialize (Hst resp eq_refl). apply Z.eqb_neq in Hst. rewrite Hst.
  reflexivity.
Qed.

(** X14.  When every request is answered with a status other than 200,
    [get_paper_bulk] raises nothing and returns the empty list, whatever
    the identifiers: a chunk that cannot be fetched is passed over.  For
    the empty identifier list it sends no request at all. *)
Theorem get_paper_bulk_skips_failed_chunks :
  forall (server : server_t) (fields : option (list string)) (w : World),
    (forall paper_ids : list string,
        (forall n rq, exists resp,
            server n rq = Ok resp /\ status resp <> 200%Z) ->
        exists w',
          SemanticScholarClient.get_paper_bulk server paper_ids fields w
          = (Ok [], w'))
    /\ SemanticScholarClient.get_paper_bulk server [] fields w = (Ok [], w).
Proof.
  intros server fields w. split; [|reflexivity].
  intros paper_ids Hserver.
  destruct (chunk_list_spec paper_ids Config.BATCH_SIZE)
    as (chunks & Hchunks & _); [unfold Config.BATCH_SIZE; lia|].
  unfold SemanticScholarClient.get_paper_bulk, bind, lift. rewrite Hchunks.
  fold (requested_fields fields). clear Hchunks. revert w.
  induction chunks as [|chunk chunks IH]; intros w.
  - exists w. reflexivity.
  - destruct (fetch_chunk_not_200 server (requested_fields fields) chunk [] w
                Hserver) as (w1 & Hf).
    destruct (IH w1) as (w2 & Hl). exists w2.
    cbn [SemanticScholarClient.bulk_loop]. unfold bind at 1.
    fold (requested_fields fields). now rewrite Hf.
Qed.

Lemma get_paper_bulk_skips_failed_chunks_witness :
  exists w',
    SemanticScholarClient.get_paper_bulk (fun _ _ => Ok (reply 404 JNull))
      ["id1"; "id2"] None fresh_world = (Ok [], w').
Proof.
  apply (proj1 (get_paper_bulk_skips_failed_chunks
                  (fun _ _ => Ok (reply 404 JNull)) None fresh_world)
           ["id1"; "id2"]).
  intros n rq. eexists. split; [reflexivity | discriminate].
Defined.

(** ** get_paper_citations and get_paper_embeddings *)

Lemma collect_citing_placeholders (entries : list json)
    (acc : list SemanticScholarPaper.t) :
  Forall (fun e => exists ed,
              e = JDict ed
              /\ (dict_get "citingPaper" ed = None
                  \/ exists v, dict_get "citingPaper" ed = Some v
                               /\ truthy v = false))
         entries ->
  SemanticScholarClient.collect_citing entries acc = Ok acc.
Proof.
  induction 1 as [|e entries (ed & -> & Hc) _ IH]; [reflexivity|].
  cbn [SemanticScholarClient.collect_citing py_get].
  destruct Hc as [-> | (v & -> & Hv)]; cbn [obind truthy].
  - exact IH.
  - rewrite Hv. exact IH.
Qed.

(** X15.  [get_paper_citations] returns the empty list, raising nothing,
    when the answer with status 200 is an object without ['data'], or with
    a ['data'] array whose entries are objects without a citing paper (no
    ['citingPaper'], or an empty or null one): such entries are passed
    over. *)
Theorem get_paper_citations_skips_placeholders :
  forall (listing : dict) (paper_id : string) (limit offset : Z) (w : World),
    (dict_get "data" listing = None
     \/ exists entries,
          dict_get "data" listing = Some (JList entries)
          /\ Forall (fun e => exists ed,
                         e = JDict ed
                         /\ (dict_get "citingPaper" ed = None
                             \/ exists v, dict_get "citingPaper" ed = Some v
                                          /\ truthy v = false))
                    entries) ->
    fst (SemanticScholarClient.get_paper_citations
           (answering (fun _ _ => JDict listing))
           paper_id None limit offset w)
    = Ok [].
Proof.
  intros listing paper_id limit offset w Hlisting.
  unfold SemanticScholarClient.get_paper_citations.
  set (rq := Get _). set (answer := fun (_ : nat) (_ : request) => _).
  destruct (make_request_sends (answering answer) rq w) as (w1 & Hw & _).
  assert (Hr : (0 <= Config.MAX_RETRIES)%Z) by (unfold Config.MAX_RETRIES; lia).
  unfold bind at 1.
  rewrite (retry_first_200 _ Config.MAX_RETRIES Config.BACKOFF_FACTOR w w1
             (reply 200 (answer (List.length (request_log w)) rq))
             Hr Hw eq_refl).
  cbn [reply status body Z.eqb Pos.eqb]. unfold bind, lift. unfold answer.
  cbn [py_get].
  destruct Hlisting as [-> | (entries & -> & Hall)]; cbn [py_iter fst].
  - reflexivity.
  - now rewrite collect_citing_placeholders.
Qed.

Lemma get_paper_citations_skips_placeholders_witness :
  fst (SemanticScholarClient.get_paper_citations
         (answering
            (fun _ _ =>
               JDict [("offset", JInt 0);
                      ("data", JList [JDict [("citingPaper", JNull)];
                                      JDict [("isInfluential", JBool false)]])]))
         "2301.12345" None 1000 0 fresh_world)
  = Ok [].
Proof.
  apply (get_paper_citations_skips_placeholders
           [("offset", JInt 0);
            ("data", JList [JDict [("citingPaper", JNull)];
                            JDict [("isInfluential", JBool false)]])]
           "2301.12345" 1000 0 fresh_world).
  right. eexists. split; [reflexivity|].
  constructor; [|constructor; [|constructor]].
  - eexists. split; [reflexivity|]. right. eexists. split; reflexivity.
  - eexists. split; [reflexivity|]. left. reflexivity.
Defined.

Lemma collect_citing_after_placeholders (placeholders rest : list json)
    (acc : list SemanticScholarPaper.t) :
  Forall (fun e => exists ed,
              e = JDict ed
              /\ (dict_get "citingPaper" ed = None
                  \/ exists v, dict_get "citingPaper" ed = Some v
                               /\ truthy v = false))
         placeholders ->
  SemanticScholarClient.collect_citing (placeholders ++ rest) acc
  = SemanticScholarClient.collect_citing rest acc.
Proof.
  induction 1 as [|e entries (ed & -> & Hc) _ IH]; [reflexivity|].
  cbn [app SemanticScholarClient.collect_citing py_get].
  destruct Hc as [-> | (v & -> & Hv)]; cbn [obind truthy].
  - exact IH.
  - rewrite Hv. exact IH.
Qed.

Lemma paper_from_dict_missing (d : dict) (f : string) :
  In f needed_fields ->
  supplied SemanticScholarPaper.field_mapping d f = None ->
  SemanticScholarPaper.from_dict (JDict d) = Raised TypeError.
Proof.
  intros Hin Hnone. unfold SemanticScholarPaper.from_dict.
  destruct (paper_convert_spec d) as [_ Hget].
  apply (paper_init_missing _ f).
  - simpl in Hin. simpl. tauto.
  - rewrite Hget.
    + rewrite Hnone. simpl in Hin.
      repeat (destruct Hin as [<- | Hin]; [reflexivity|]). contradiction.
    + simpl in Hin.
      repeat (destruct Hin as [<- | Hin]; [reflexivity|]). contradiction.
Qed.

(** X16.  [get_paper_citations] raises [TypeError] as soon as the listing
    holds a citing paper that lacks one of the fields without default: the
    first such paper, after any number of entries without citing paper,
    ends the call, whatever follows.  The fields that the client requests
    ([Config.CITATION_FIELDS]) leave out [publicationTypes],
    [publicationDate] and [journal], so an answer limited to them is of
    that kind. *)
Theorem get_paper_citations_raises_on_partial_paper :
  forall (placeholders rest : list json) (entry paper : dict) (f : string)
         (paper_id : string) (limit offset : Z) (w : World),
    Forall (fun e => exists ed,
                e = JDict ed
                /\ (dict_get "citingPaper" ed = None
                    \/ exists v, dict_get "citingPaper" ed = Some v
                                 /\ truthy v = false))
           placeholders ->
    dict_get "citingPaper" entry = Some (JDict paper) ->
    paper <> [] ->
    In f needed_fields ->
    supplied SemanticScholarPaper.field_mapping paper f = None ->
    fst (SemanticScholarClient.get_paper_citations
           (answering
              (fun _ _ =>
                 JDict [("data",
                         JList (placeholders ++ JDict entry :: rest))]))
           paper_id None limit offset w)
    = Raised TypeError.
Proof.
  intros placeholders rest entry paper f paper_id limit offset w
    Hpl Hentry Hne Hin Hnone.
  unfold SemanticScholarClient.get_paper_citations.
  set (rq := Get _). set (answer := fun (_ : nat) (_ : request) => _).
  destruct (make_request_sends (answering answer) rq w) as (w1 & Hw & _).
  assert (Hr : (0 <= Config.MAX_RETRIES)%Z) by (unfold Config.MAX_RETRIES; lia).
  unfold bind at 1.
  rewrite (retry_first_200 _ Config.MAX_RETRIES Config.BACKOFF_FACTOR w w1
             (reply 200 (answer (List.length (request_log w)) rq))
             Hr Hw eq_refl).
  cbn [reply status body Z.eqb Pos.eqb]. unfold bind, lift. unfold answer.
  cbn [py_get dict_get String.eqb Ascii.eqb Bool.eqb py_iter fst].
  rewrite (collect_citing_after_placeholders _ _ _ Hpl).
  cbn [SemanticScholarClient.collect_citing py_get]. rewrite Hentry.
  cbn [obind truthy]. destruct paper as [|kv paper]; [congruence|].
  now rewrite (paper_from_dict_missing _ f Hin Hnone).
Qed.

Lemma get_paper_citations_raises_on_partial_paper_witness :
  fst (SemanticScholarClient.get_paper_citations
         (answering
            (fun _ _ =>
               JDict [("data",
                       JList ([JDict [("citingPaper", JNull)]]
                              ++ JDict
                                   [("citingPaper",
                                     JDict [ ("paperId", JStr "X");
                                             ("title", JStr "T");
                                             ("abstract", JNull);
                                             ("authors", JList []);
                                             ("year", JInt 2020);
                                             ("citationCount", JInt 1);
                                             ("venue", JStr "V");
                                             ("url", JStr "u");
                                             ("externalIds", JNull) ])]
                                 :: []))]))
         "2301.12345" None 1000 0 fresh_world)
  = Raised TypeError.
Proof.
  apply (get_paper_citations_raises_on_partial_paper
           [JDict [("citingPaper", JNull)]] []
           [("citingPaper",
             JDict [ ("paperId", JStr "X"); ("title", JStr "T");
                     ("abstract", JNull); ("authors", JList []);
                     ("year", JInt 2020); ("citationCount", JInt 1);
                     ("venue", JStr "V"); ("url", JStr "u");
                     ("externalIds", JNull) ])]
           [ ("paperId", JStr "X"); ("title", JStr "T"); ("abstract", JNull);
             ("authors", JList []); ("year", JInt 2020);
             ("citationCount", JInt 1); ("venue", JStr "V");
             ("url", JStr "u"); ("externalIds", JNull) ]
           "journal" "2301.12345" 1000 0 fresh_world).
  - constructor; [|constructor].
    eexists. split; [reflexivity|]. right. eexists. split; reflexivity.
  - reflexivity.
  - discriminate.
  - simpl. tauto.
  - reflexivity.
Defined.

(** X17.  [get_paper_embeddings] asks for the field ['embedding'] alone and
    normalizes the answer as a whole paper: whenever the answers with
    status 200 are objects that lack one of the fields without default (a
    title, say), it raises [TypeError] instead of returning the
    embedding. *)
Theorem get_paper_embeddings_raises_on_partial_answer :
  forall (answer : nat -> request -> json) (paper_id : string) (w : World),
    (forall n rq, exists d f,
        answer n rq = JDict d
        /\ In f needed_fields
        /\ supplied SemanticScholarPaper.field_mapping d f = None) ->
    fst (get_paper_embeddings (answering answer) paper_id w)
    = Raised TypeError.
Proof.
  intros answer paper_id w Hans.
  unfold get_paper_embeddings, SemanticScholarClient.get_paper.
  set (rq := Get _).
  destruct (make_request_sends (answering answer) rq w) as (w1 & Hw & _).
  assert (Hr : (0 <= Config.MAX_RETRIES)%Z) by (unfold Config.MAX_RETRIES; lia).
  unfold bind at 1. unfold bind at 1.
  rewrite (retry_first_200 _ Config.MAX_RETRIES Config.BACKOFF_FACTOR w w1
             (reply 200 (answer (List.length (request_log w)) rq))
             Hr Hw eq_refl).
  cbn [reply status body Z.eqb Pos.eqb]. unfold bind, lift.
  destruct (Hans (List.length (request_log w)) rq) as (d & f & -> & Hin & Hnone).
  now rewrite (paper_from_dict_missing d f Hin Hnone).
Qed.

Lemma get_paper_embeddings_raises_on_partial_answer_witness :
  fst (get_paper_embeddings
         (answering
            (fun _ _ =>
               JDict [ ("paperId", JStr "X");
                       ("embedding",
                        JDict [("model", JStr "specter_v2");
                               ("vector", JList [JInt 1; JInt 2])]) ]))
         "X" fresh_world)
  = Raised TypeError.
Proof.
  apply (get_paper_embeddings_raises_on_partial_answer
           (fun _ _ =>
              JDict [ ("paperId", JStr "X");
                      ("embedding",
                       JDict [("model", JStr "specter_v2");
                              ("vector", JList [JInt 1; JInt 2])]) ])
           "X" fresh_world).
  intros n rq. eexists. exists "title". split; [reflexivity|].
  split; [simpl; tauto | reflexivity].
Defined.


(** ** The identifier cut out of an [/abs/] URL *)

Lemma prefix_drop (sep s : string) :
  String.prefix sep s = true ->
  s = (sep ++ drop (String.length sep) s)%string.
Proof.
  revert s. induction sep as [|a sep IH]; intros s H; [reflexivity|].
  destruct s as [|b s]; [discriminate|]. simpl in H.
  destruct (Ascii.ascii_dec a b) as [->|]; [|discriminate].
  simpl. f_equal. now apply IH.
Qed.

Lemma prefix_empty (sep : string) :
  sep <> EmptyString -> String.prefix sep EmptyString = false.
Proof. destruct sep; [congruence | reflexivity]. Qed.

Lemma length_drop (n : nat) (s : string) :
  String.length (drop n s) = String.length s - n.
Proof.
  revert s. induction n as [|n IH]; intros s; simpl; [lia|].
  destruct s as [|c s]; simpl; [reflexivity | apply IH].
Qed.

Lemma last_piece_skip (sep : string) (skip : nat) (s acc : string) :
  last_piece sep skip s acc = last_piece sep 0 (drop skip s) acc.
Proof.
  revert skip. induction s as [|c s IH]; intros skip.
  - destruct skip; reflexivity.
  - destruct skip as [|k]; [reflexivity|]. simpl. apply IH.
Qed.

Lemma last_piece_step (sep : string) (c : ascii) (s acc : string) :
  sep <> EmptyString ->
  last_piece sep 0 (String c s) acc
  = if String.prefix sep (String c s)
    then last_piece sep 0 (drop (String.length sep) (String c s))
           (drop (String.length sep) (String c s))
    else last_piece sep 0 s acc.
Proof.
  intros Hsep. cbn [last_piece].
  destruct (String.prefix sep (String c s)); [|reflexivity].
  rewrite last_piece_skip.
  destruct sep as [|a sep]; [congruence|].
  cbn [String.length drop Nat.sub]. now rewrite Nat.sub_0_r.
Qed.

Lemma append_assoc' (a b c : string) :
  ((a ++ b) ++ c = a ++ (b ++ c))%string.
Proof. induction a as [|x a IH]; simpl; [reflexivity | now rewrite IH]. Qed.

Lemma last_piece_spec (sep : string) :
  sep <> EmptyString ->
  forall (n : nat) (s acc : string),
    String.length s <= n ->
    (contains sep s = false -> last_piece sep 0 s acc = acc)
    /\ (contains sep s = true ->
        contains sep (last_piece sep 0 s acc) = false
        /\ exists pre, s = (pre ++ sep ++ last_piece sep 0 s acc)%string).
Proof.
  intros Hsep. induction n as [|n IH]; intros s acc Hlen.
  - destruct s; [|simpl in Hlen; lia]. cbn [contains last_piece].
    rewrite (prefix_empty sep Hsep). split; [reflexivity | discriminate].
  - destruct s as [|c s].
    + cbn [contains last_piece]. rewrite (prefix_empty sep Hsep).
      split; [reflexivity | discriminate].
    + rewrite (last_piece_step sep c s acc Hsep).
      cbn [contains].
      destruct (String.prefix sep (String c s)) eqn:Ep.
      * set (t := drop (String.length sep) (String c s)).
        assert (Ht : String.length t <= n).
        { unfold t. rewrite length_drop. simpl in *.
          destruct sep; [congruence | simpl; lia]. }
        destruct (IH t t Ht) as [Hno Hyes].
        split; [discriminate|]. intros _.
        pose proof (prefix_drop sep (String c s) Ep) as Hs. fold t in Hs.
        destruct (contains sep t) eqn:Ec.
        -- destruct (Hyes eq_refl) as (Hclean & pre & Hpre).
           split; [exact Hclean|].
           exists (sep ++ pre)%string.
           rewrite Hs at 1. rewrite Hpre at 1.
           now rewrite append_assoc'.
        -- rewrite (Hno eq_refl). split; [exact Ec|].
           exists EmptyString. exact Hs.
      * simpl. simpl in Hlen.
        destruct (IH s acc ltac:(lia)) as [Hno Hyes].
        split; [exact Hno|]. intros Hc.
        destruct (Hyes Hc) as (Hclean & pre & Hpre).
        split; [exact Hclean|].
        exists (String c pre). simpl. now rewrite <- Hpre.
Qed.

Lemma split_last_spec (sep s : string) :
  sep <> EmptyString ->
  contains sep (split_last sep s) = false
  /\ (contains sep s = true ->
      exists pre, s = (pre ++ sep ++ split_last sep s)%string)
  /\ (contains sep s = false -> split_last sep s = s).
Proof.
  intros Hsep. unfold split_last.
  destruct (last_piece_spec sep Hsep (String.length s) s s (le_n _))
    as [Hno Hyes].
  destruct (contains sep s) eqn:Ec.
  - destruct (Hyes eq_refl) as (Hclean & Hpre).
    split; [exact Hclean|]. split; [intros _; exact Hpre | discriminate].
  - rewrite (Hno eq_refl). split; [exact Ec|].
    split; [discriminate | reflexivity].
Qed.

(** X18.  The identifier of a parsed arXiv entry never contains [/abs/].
    When the text of the [<id>] element contains [/abs/], the identifier is
    an end of that text, right after an [/abs/]; when it does not, or when
    there is no [<id>] element, the identifier is empty. *)
Theorem parse_entry_arxiv_id :
  forall (entry : ET.Element) (paper : ArxivPaper.t),
    ArxivClient.parse_entry entry = Some paper ->
    contains "/abs/" (ArxivPaper.arxiv_id paper) = false
    /\ (ET.find (ET.atom "id") entry = None ->
        ArxivPaper.arxiv_id paper = "")
    /\ (forall id_elem,
          ET.find (ET.atom "id") entry = Some id_elem ->
          exists id_url,
            ET.text id_elem = Some id_url
            /\ (contains "/abs/" id_url = true ->
                exists pre,
                  id_url = (pre ++ "/abs/" ++ ArxivPaper.arxiv_id paper)%string)
            /\ (contains "/abs/" id_url = false ->
                ArxivPaper.arxiv_id paper = "")).
Proof.
  intros entry paper.
  unfold ArxivClient.parse_entry, ArxivClient.parse_entry_body.
  destruct (match ET.find (ET.atom "title") entry with
            | Some _ => _ | None => _ end) as [title|e];
    cbn [obind]; [|discriminate].
  destruct (ArxivClient.author_names _) as [authors|e];
    cbn [obind]; [|discriminate].
  destruct (match ET.find (ET.atom "summary") entry with
            | Some _ => _ | None => _ end) as [abstract|e];
    cbn [obind]; [|discriminate].
  destruct (ET.find (ET.atom "id") entry) as [id_elem|].
  - destruct (ET.text id_elem) as [id_url|] eqn:Et; cbn [obind];
      [|discriminate].
    destruct (split_last_spec "/abs/" id_url ltac:(discriminate))
      as (Hclean & Hyes & _).
    destruct (contains "/abs/" id_url) eqn:Ec; cbn [obind];
      intros [= <-]; cbn [ArxivPaper.arxiv_id].
    + split; [exact Hclean|]. split; [discriminate|].
      intros ? [= <-]. exists id_url. split; [exact Et|].
      split; [intros _; now apply Hyes | intros H; congruence].
    + split; [reflexivity|]. split; [discriminate|].
      intros ? [= <-]. exists id_url. split; [exact Et|].
      split; [intros H; congruence | reflexivity].
  - cbn [obind]. intros [= <-]. cbn [ArxivPaper.arxiv_id].
    split; [reflexivity|]. split; [reflexivity | discriminate].
Qed.

Lemma parse_entry_arxiv_id_witness :
  contains "/abs/" "2301.12345v1" = false
  /\ (ET.find (ET.atom "id")
        (ET.Elem (ET.atom "entry") None []
           [ET.Elem (ET.atom "id")
              (Some "http://arxiv.org/abs/2301.12345v1") [] []]) = None ->
      "2301.12345v1" = "")
  /\ (forall id_elem,
        ET.find (ET.atom "id")
          (ET.Elem (ET.atom "entry") None []
             [ET.Elem (ET.atom "id")
                (Some "http://arxiv.org/abs/2301.12345v1") [] []])
        = Some id_elem ->
        exists id_url,
          ET.text id_elem = Some id_url
          /\ (contains "/abs/" id_url = true ->
              exists pre, id_url = (pre ++ "/abs/" ++ "2301.12345v1")%string)
          /\ (contains "/abs/" id_url = false -> "2301.12345v1" = "")).
Proof.
  apply (parse_entry_arxiv_id
           (ET.Elem (ET.atom "entry") None []
              [ET.Elem (ET.atom "id")
                 (Some "http://arxiv.org/abs/2301.12345v1") [] []])
           (ArxivPaper.Build "Unknown Title" [] "" "2301.12345v1"
              (Some "") "" [])).
  reflexivity.
Defined.


(** ** What a parsed arXiv entry looks like *)






Lemma author_names_stripped (elems : list ET.Element) (names : list string) :
  ArxivClient.author_names elems = Ok names ->
  Forall (fun a => starts_with_space a = false /\ ends_with_space a = false)
         names
  /\ List.length names <= List.length elems.
Proof.
  revert names. induction elems as [|e elems IH]; intros names.
  - intros [= <-]. split; [constructor | apply le_n].
  - cbn [ArxivClient.author_names].
    destruct (ET.find (ET.atom "name") e) as [name_elem|].
    + unfold ArxivClient.text_strip.
      destruct (ET.text name_elem) as [t|]; cbn [obind]; [|discriminate].
      destruct (ArxivClient.author_names elems) as [ns|]; cbn [obind];
        [|discriminate].
      intros [= <-]. destruct (IH ns eq_refl) as [Hall Hlen].
      split; [|simpl; lia].
      constructor; [apply strip_no_surrounding_space | exact Hall].
    + intros H. destruct (IH names H) as [Hall Hlen].
      split; [exact Hall | simpl; lia].
Qed.

Lemma category_terms_spec (cats : list ET.Element) :
  Forall (fun term => term <> "") (ArxivClient.category_terms cats)
  /\ List.length (ArxivClient.category_terms cats) <= List.length cats.
Proof.
  induction cats as [|c cats [IH1 IH2]]; [split; [constructor | apply le_n]|].
  cbn [ArxivClient.category_terms].
  destruct (ET.get "term" c) as [term|]; [|split; [exact IH1 | simpl; lia]].
  destruct (String.eqb term "") eqn:E; [split; [exact IH1 | simpl; lia]|].
  apply String.eqb_neq in E.
  split; [now constructor | simpl; lia].
Qed.

Lemma first_pdf_link_spec (links : list ET.Element) :
  ArxivClient.first_pdf_link links <> "" ->
  exists link,
    In link links
    /\ ET.get "type" link = Some "application/pdf"
    /\ ET.get "href" link = Some (ArxivClient.first_pdf_link links).
Proof.
  induction links as [|l links IH]; [now intros []|].
  cbn [ArxivClient.first_pdf_link].
  destruct (ET.get "type" l) as [ty|] eqn:Et.
  - destruct (String.eqb ty "application/pdf") eqn:E.
    + apply String.eqb_eq in E. subst ty.
      destruct (ET.get "href" l) as [h|] eqn:Eh; [|now intros []].
      intros _. exists l. split; [now left | auto].
    + intros H. destruct (IH H) as (link & Hin & Hl).
      exists link. split; [now right | exact Hl].
  - intros H. destruct (IH H) as (link & Hin & Hl).
    exists link. split; [now right | exact Hl].
Qed.

Ltac parsed_entry entry :=
  unfold ArxivClient.parse_entry, ArxivClient.parse_entry_body;
  let Eti := fresh "Etitle" in
  let Eau := fresh "Eauthors" in
  let Eab := fresh "Eabstract" in
  let Eid := fresh "Eid" in
  destruct (match ET.find (ET.atom "title") entry with
            | Some _ => _ | None => _ end) as [?title|?e] eqn:Eti;
    cbn [obind]; [|discriminate];
  destruct (ArxivClient.author_names _) as [?authors|?e] eqn:Eau;
    cbn [obind]; [|discriminate];
  destruct (match ET.find (ET.atom "summary") entry with
            | Some _ => _ | None => _ end) as [?abstract|?e] eqn:Eab;
    cbn [obind]; [|discriminate];
  destruct (match ET.find (ET.atom "id") entry with
            | Some _ => _ | None => _ end) as [?arxiv_id|?e] eqn:Eid;
    cbn [obind]; [|discriminate].



(** X20.  A parsed arXiv entry has no empty category term, at most one
    category per [<category>] element and at most one author per [<author>]
    element; a non-empty PDF URL is the [href] of one of its links of type
    [application/pdf]. *)
Theorem parse_entry_lists :
  forall (entry : ET.Element) (paper : ArxivPaper.t),
    ArxivClient.parse_entry entry = Some paper ->
    Forall (fun term => term <> "") (ArxivPaper.categories paper)
    /\ List.length (ArxivPaper.categories paper)
       <= List.length (ET.findall (ET.atom "category") entry)
    /\ List.length (ArxivPaper.authors paper)
       <= List.length (ET.findall (ET.atom "author") entry)
    /\ (ArxivPaper.pdf_url paper <> "" ->
        exists link,
          In link (ET.findall (ET.atom "link") entry)
          /\ ET.get "type" link = Some "application/pdf"
          /\ ET.get "href" link = Some (ArxivPaper.pdf_url paper)).
Proof.
  intros entry paper. parsed_entry entry.
  intros [= <-].
  cbn [ArxivPaper.categories ArxivPaper.authors ArxivPaper.pdf_url].
  destruct (category_terms_spec (ET.findall (ET.atom "category") entry))
    as [Hc1 Hc2].
  split; [exact Hc1|]. split; [exact Hc2|].
  split; [apply (author_names_stripped _ _ Eauthors)|].
  apply first_pdf_link_spec.
Qed.

Lemma parse_entry_lists_witness :
  Forall (fun term => term <> "") ["cs.LG"]
  /\ List.length ["cs.LG"]
     <= List.length
          (ET.findall (ET.atom "category")
             (ET.Elem (ET.atom "entry") None []
                [ET.Elem (ET.atom "category") None [("term", "cs.LG")] [];
                 ET.Elem (ET.atom "category") None [("term", "")] []]))
  /\ List.length (@nil string)
     <= List.length
          (ET.findall (ET.atom "author")
             (ET.Elem (ET.atom "entry") None []
                [ET.Elem (ET.atom "category") None [("term", "cs.LG")] [];
                 ET.Elem (ET.atom "category") None [("term", "")] []]))
  /\ ("" <> "" ->
      exists link,
        In link
          (ET.findall (ET.atom "link")
             (ET.Elem (ET.atom "entry") None []
                [ET.Elem (ET.atom "category") None [("term", "cs.LG")] [];
                 ET.Elem (ET.atom "category") None [("term", "")] []]))
        /\ ET.get "type" link = Some "application/pdf"
        /\ ET.get "href" link = Some "").
Proof.
  apply (parse_entry_lists
           (ET.Elem (ET.atom "entry") None []
              [ET.Elem (ET.atom "category") None [("term", "cs.LG")] [];
               ET.Elem (ET.atom "category") None [("term", "")] []])
           (ArxivPaper.Build "Unknown Title" [] "" "" (Some "") ""
              ["cs.LG"])).
  reflexivity.
Defined.


(** ** The arXiv requests *)

Lemma fetch_spec (server : text_server_t) (A : Type) (query_url : string)
    (parse : string -> outcome A) (fallback : A) (w : World) :
  exists (r : A) (w' : World),
    ArxivRequests.fetch server query_url parse fallback w = (Ok r, w')
    /\ request_log w' = request_log w ++ [Get query_url]
    /\ (forall resp content,
          server (List.length (request_log w)) (Get query_url) = Ok resp ->
          text_status resp = 200%Z -> text resp = Ok content ->
          forall v, parse content = Ok v -> r = v)
    /\ (r = fallback
        \/ exists resp content,
             server (List.length (request_log w)) (Get query_url) = Ok resp
             /\ text_status resp = 200%Z
             /\ text resp = Ok content
             /\ parse content = Ok r).
Proof.
  destruct (rate_limiter_wait_ok w) as (w0 & Hw & Hlog & _).
  unfold ArxivRequests.fetch. unfold bind at 1. rewrite Hw.
  unfold catch, bind, send_text, lift, ret. rewrite Hlog.
  destruct (server (List.length (request_log w)) (Get query_url))
    as [resp|e] eqn:Es.
  - destruct (Z.eqb_spec (text_status resp) 200) as [H200|H200].
    + destruct (text resp) as [content|e] eqn:Et.
      * destruct (parse content) as [v|e] eqn:Ep;
          eexists; eexists; (split; [reflexivity|]);
          cbn [request_log]; (split; [reflexivity|]); split.
        -- intros resp' content' [= <-] _ Ht v' Hv.
           rewrite Et in Ht. injection Ht as <-. congruence.
        -- right. exists resp, content. auto.
        -- intros resp' content' [= <-] _ Ht v' Hv.
           rewrite Et in Ht. injection Ht as <-. congruence.
        -- now left.
      * eexists; eexists; (split; [reflexivity|]);
          cbn [request_log]; (split; [reflexivity|]); split.
        -- intros resp' content' [= <-] _ Ht. congruence.
        -- now left.
    + eexists; eexists; (split; [reflexivity|]);
        cbn [request_log]; (split; [reflexivity|]); split.
      * intros resp' content' [= <-] H. congruence.
      * now left.
  - eexists; eexists; (split; [reflexivity|]);
      cbn [request_log]; (split; [reflexivity|]); split.
    + intros resp' content' H. discriminate H.
    + now left.
Qed.


Lemma occurs_append (c : ascii) (a b : string) :
  occurs c (a ++ b)%string = occurs c a || occurs c b.
Proof.
  induction a as [|x a IH]; [reflexivity|].
  simpl. now rewrite IH, orb_assoc.
Qed.

Lemma replace_removes_char (c : ascii) (new s : string) :
  occurs c new = false ->
  occurs c (replace (String c EmptyString) new s) = false.
Proof.
  intros Hnew. unfold replace. induction s as [|x s IH]; [reflexivity|].
  cbn [replace_from String.prefix String.length Nat.sub].
  destruct (Ascii.ascii_dec c x) as [Heq|Hne].
  - replace (String.prefix EmptyString s) with true
      by (destruct s; reflexivity).
    rewrite occurs_append, Hnew. exact IH.
  - cbn [occurs]. rewrite IH, orb_false_r.
    now apply Ascii.eqb_neq.
Qed.

(** X22.  Whatever the network and the XML parser do, the three arXiv
    searches raise nothing and send exactly one GET request each; they
    return a non-empty list only if that request was answered with status
    200 and a text from which [_parse_arxiv_search_response] returns that
    list.  The query of [search_papers] and of [search_by_author] is sent
    without any space: each space becomes ["+AND+"], respectively ["+"]. *)
Theorem arxiv_searches_never_raise :
  forall (server : text_server_t) (fromstring : string -> outcome ET.Element)
         (max_results : Z) (w : World),
    let found (query_url : string) (run : M (list ArxivPaper.t)) :=
      exists (r : list ArxivPaper.t) (w' : World),
        run w = (Ok r, w')
        /\ request_log w' = request_log w ++ [Get query_url]
        /\ (r <> [] ->
            exists resp content,
              server (List.length (request_log w)) (Get query_url) = Ok resp
              /\ text_status resp = 200%Z
              /\ text resp = Ok content
              /\ ArxivClient.parse_arxiv_search_response fromstring content
                 = Ok r) in
    (forall query sort_by sort_order,
        found (ArxivRequests.search_url
                 ("all:" ++ replace " " "+AND+" query) max_results
                 sort_by sort_order)
              (ArxivRequests.search_papers server fromstring query
                 max_results sort_by sort_order)
        /\ occurs space (replace " " "+AND+" query) = false)
    /\ (forall author_name,
          found (ArxivRequests.search_url
                   ("au:" ++ replace " " "+" author_name) max_results
                   "submittedDate" "descending")
                (ArxivRequests.search_by_author server fromstring author_name
                   max_results)
          /\ occurs space (replace " " "+" author_name) = false)
    /\ (forall category,
          found (ArxivRequests.search_url ("cat:" ++ category) max_results
                   "submittedDate" "descending")
                (ArxivRequests.search_by_category server fromstring category
                   max_results)).
Proof.
  intros server fromstring max_results w found.
  assert (Hfound : forall query_url,
             found query_url
               (ArxivRequests.fetch server query_url
                  (ArxivClient.parse_arxiv_search_response fromstring) [])).
  { intros query_url.
    destruct (fetch_spec server _ query_url
                (ArxivClient.parse_arxiv_search_response fromstring) [] w)
      as (r & w' & Hf & Hlog & _ & Hsound).
    exists r, w'. split; [exact Hf|]. split; [exact Hlog|].
    intros Hne. destruct Hsound as [Hnil | H]; [congruence | exact H]. }
  split; [|split].
  - intros query sort_by sort_order. split; [apply Hfound|].
    now apply (replace_removes_char space "+AND+" query).
  - intros author_name. split; [apply Hfound|].
    now apply (replace_removes_char space "+" author_name).
  - intros category. apply Hfound.
Qed.
